(** * Pricing_Master: the price-combination search engine

    A shallow embedding of [PricingMaster.py] (the basic variant) and
    [appPricingBoletos.py] (the variant with pinned end points), and the
    properties of their candidate generator, exhaustive search, heuristic
    search, revenue model and ranking step.

    Numbers are the program's: a Python [float] is an IEEE-754 binary64,
    here Rocq's primitive [float]; a Python [int] is a [Z].  The two
    exceptions the engine can raise on well-typed arguments
    ([ZeroDivisionError] from [/], [OverflowError] from converting an [int]
    to a [float]) are results of an error monad.  The random source is an
    explicit stream [rnd : nat -> float] of the values [random.random()]
    hands out, read at a position that every draw advances. *)

From Stdlib Require Import String ZArith Floats Lia Bool List Permutation Sorted.
Import ListNotations.

Set Warnings "-inexact-float".
Local Open Scope float_scope.

(* ================================================================== *)
(** * Exceptions *)

Inductive exn : Type :=
| ZeroDivisionError
| OverflowError.

Inductive result (A : Type) : Type :=
| Ok (a : A)
| Raise (e : exn).

Arguments Ok {A} a.
Arguments Raise {A} e.

Definition bind {A B : Type} (c : result A) (k : A -> result B) : result B :=
  match c with
  | Ok a => k a
  | Raise e => Raise e
  end.

Notation "x <- c1 ;; c2" := (bind c1 (fun x => c2))
  (at level 100, c1 at next level, right associativity).
Notation "' pat <- c1 ;; c2" := (bind c1 (fun x => match x with pat => c2 end))
  (at level 100, pat pattern, c1 at next level, right associativity).

(** [for _ in range(n): body], the loop state threaded through. *)
Fixpoint for_range {S : Type} (n : nat) (body : S -> result S) (s : S)
  : result S :=
  match n with
  | O => Ok s
  | Datatypes.S n' => s' <- body s ;; for_range n' body s'
  end.

(** Evaluate a generator's items left to right; the first exception ends it. *)
Fixpoint map_result {A B : Type} (f : A -> result B) (l : list A)
  : result (list B) :=
  match l with
  | [] => Ok []
  | a :: l' => b <- f a ;; bs <- map_result f l' ;; Ok (b :: bs)
  end.

(* ================================================================== *)
(** * The Python built-ins the engine calls *)

(** [float(n)] for an [int] that is known to fit (round to nearest, ties to
    even). *)
Definition float_of_Z (n : Z) : float :=
  SF2Prim (binary_normalize prec emax n 0 false).

(** The conversion Python applies to an [int] operand of a [float]
    operation: it raises [OverflowError] when the rounded value does not
    fit in a binary64. *)
Definition float_of_int (n : Z) : result float :=
  let f := float_of_Z n in
  if is_infinity f then Raise OverflowError else Ok f.

(** [a / b] on floats: a zero divisor (of either sign) raises. *)
Definition py_truediv (a b : float) : result float :=
  if b =? 0 then Raise ZeroDivisionError else Ok (a / b).

(** [a >= b] *)
Definition py_ge (a b : float) : bool := b <=? a.

(** [max(a, b)]: the first argument unless the second is greater. *)
Definition py_max (a b : float) : float := if a <? b then b else a.

(** [sum(items)]: starts from [0] and adds from left to right.  (CPython 3.12
    and later carry a compensation term for the rounding errors of these
    additions; the results below are stated for whatever this sum returns,
    and the sums evaluated in the examples are exact, infinite or NaN.) *)
Definition py_sum (l : list float) : float := fold_left add l 0.

(** [round(x, 2)]: the exact value of [x] is rounded to the nearest multiple
    of [1/100] (an exact tie goes to the even multiple), and the float
    nearest to that decimal is returned.  NaN, the infinities and the zeros
    round to themselves, and a float with a non-negative exponent is an
    integer already. *)
Definition py_round2 (x : float) : float :=
  match Prim2SF x with
  | S754_finite s m e =>
      match e with
      | Zneg p =>
          let n := (Zpos m * 100)%Z in
          let d := (2 ^ Zpos p)%Z in
          let q0 := (n / d)%Z in
          let r := (n mod d)%Z in
          let q := match (2 * r ?= d)%Z with
                   | Lt => q0
                   | Gt => Z.succ q0
                   | Eq => if Z.even q0 then q0 else Z.succ q0
                   end in
          match q with
          | Zpos qp =>
              SF2Prim (SFdiv prec emax (S754_finite s qp 0)
                                       (S754_finite false 100 0))
          | _ => SF2Prim (S754_zero s)
          end
      | _ => x
      end
  | _ => x
  end.

(** [random.uniform(a, b)] is [a + (b - a) * random()]; [u] is the value
    [random()] returned. *)
Definition uniform (a b u : float) : float := a + (b - a) * u.

(** [d.get(key, default)] on a dict with string keys. *)
Fixpoint dict_get {V : Type} (d : list (string * V)) (key : string)
  (default : V) : V :=
  match d with
  | [] => default
  | (k, v) :: d' => if String.eqb k key then v else dict_get d' key default
  end.

(** [itertools.product] of the pools, as its documentation defines it:
    [result = [[]]], then for each pool
    [result = [x + [y] for x in result for y in pool]]. *)
Definition product_step {A : Type} (result : list (list A)) (pool : list A)
  : list (list A) :=
  flat_map (fun x => map (fun y => x ++ [y]) pool) result.

Definition product {A : Type} (pools : list (list A)) : list (list A) :=
  fold_left product_step pools [[]].

(** [itertools.islice(it, n)] *)
Definition islice {A : Type} (it : list A) (n : nat) : list A := firstn n it.

(** [sorted(l, key=key)] with the keys already computed: each item is put
    before the first item of the sorted rest whose key is not smaller than
    its own, so equal keys keep their order.  This is the list Python's
    sort returns whenever [<] orders the keys, that is when none is NaN. *)
Fixpoint insert_sorted {A : Type} (kx : float * A) (l : list (float * A))
  : list (float * A) :=
  match l with
  | [] => [kx]
  | ky :: l' =>
      if fst ky <? fst kx then ky :: insert_sorted kx l' else kx :: ky :: l'
  end.

Fixpoint sort_keyed {A : Type} (l : list (float * A)) : list (float * A) :=
  match l with
  | [] => []
  | kx :: l' => insert_sorted kx (sort_keyed l')
  end.

Definition sorted_by_key {A : Type} (key : A -> result float) (l : list A)
  : result (list A) :=
  keys <- map_result key l ;;
  Ok (map snd (sort_keyed (combine keys l))).

(* ================================================================== *)
(** * Data model *)

(** A section is the dict [{'name': ..., 'seats': ...}]. *)
Record section_t : Type := mk_section { name : string; seats : Z }.

(** The margin test both searches apply to a combination:
    [all(combo[j] >= margin_factor * combo[j+1] for j in range(len(combo)-1))]. *)
Definition margin_ok (margin_factor : float) (combo : list float) : bool :=
  forallb (fun j => py_ge (nth j combo 0) (margin_factor * nth (j + 1) combo 0))
          (seq 0 (length combo - 1)).

Definition enumeration_cap : nat := Z.to_nat 100000.
Definition trial_count : nat := Z.to_nat 10000.

(** The state of a heuristic search: [best_combo], [best_diff] and the
    position in the random stream. *)
Definition search_state : Type := (option (list float) * float * nat)%type.

(* ================================================================== *)
(** * PricingMaster.py *)

Module PricingMaster.

Definition num_candidates : Z := 9.

Definition generate_candidate_prices (global_min global_max : float)
  (scenario : string) : list float :=
  if global_max =? global_min then [global_min]
  else
    let step := (global_max - global_min) / float_of_Z (num_candidates - 1) in
    let candidates :=
      map (fun i => py_round2 (global_min + float_of_Z (Z.of_nat i) * step))
          (seq 0 (Z.to_nat num_candidates)) in
    if String.eqb scenario "alta" then skipn 6 candidates
    else if String.eqb scenario "moderada" then firstn 3 (skipn 3 candidates)
    else if String.eqb scenario "baja" then firstn 3 candidates
    else candidates.

Definition generate_combinations (sections : list section_t)
  (scenario : string) (global_min global_max margin_factor : float)
  : list (list float) :=
  let get_candidates (i : nat) :=
    generate_candidate_prices global_min global_max scenario in
  let candidate_lists := map get_candidates (seq 0 (length sections)) in
  filter (margin_ok margin_factor)
         (islice (product candidate_lists) enumeration_cap).

Definition sell_rates : list (string * float) :=
  [("alta"%string, 0.98); ("moderada"%string, 0.90); ("baja"%string, 0.85)].

Definition compute_revenue_for_combo (combo : list float)
  (sections : list section_t) (scenario : string) : result float :=
  let sell_rate := dict_get sell_rates scenario 0.95 in
  terms <- map_result
             (fun ps : float * section_t =>
                let (price, sec) := ps in
                n <- float_of_int (seats sec) ;;
                Ok (n * sell_rate * price))
             (combine combo sections) ;;
  Ok (py_sum terms).

(** The inner loop of a trial: one price per section. *)
Fixpoint build_combo (rnd : nat -> float) (sections : list section_t)
  (global_min margin_factor : float) (combo : list float)
  (prev_price : float) (k : nat) : result (list float * nat) :=
  match sections with
  | [] => Ok (combo, k)
  | _ :: rest =>
      hi <- py_truediv prev_price margin_factor ;;
      let price := uniform global_min hi (rnd k) in
      build_combo rnd rest global_min margin_factor
                  (combo ++ [py_round2 price]) price (S k)
  end.

Definition trial (rnd : nat -> float) (target : float)
  (sections : list section_t) (global_min global_max margin_factor : float)
  (st : search_state) : result search_state :=
  let '(best_combo, best_diff, k) := st in
  '(combo, k') <- build_combo rnd sections global_min margin_factor
                              [] global_max k ;;
  if margin_ok margin_factor combo then
    revenue <- compute_revenue_for_combo combo sections "alta" ;;
    let diff := abs (revenue - target) in
    if diff <? best_diff then Ok (Some combo, diff, k')
    else Ok (best_combo, best_diff, k')
  else Ok (best_combo, best_diff, k').

Definition heuristic_search (rnd : nat -> float) (target : float)
  (sections : list section_t) (global_min global_max margin_factor : float)
  : result (option (list float)) :=
  st <- for_range trial_count
          (trial rnd target sections global_min global_max margin_factor)
          (None, infinity, O) ;;
  Ok (fst (fst st)).

End PricingMaster.

(* ================================================================== *)
(** * appPricingBoletos.py *)

Module AppPricingBoletos.

Definition num_candidates : Z := 9.

Definition generate_candidate_prices (global_min global_max : float)
  (scenario : string) : list float :=
  if global_max <=? global_min then [global_min]
  else
    let step := (global_max - global_min) / float_of_Z (num_candidates - 1) in
    let candidates :=
      map (fun i => py_round2 (global_min + float_of_Z (Z.of_nat i) * step))
          (seq 0 (Z.to_nat num_candidates)) in
    let scenario_ranges :=
      [("alta"%string, skipn 6 candidates);
       ("moderada"%string, firstn 3 (skipn 3 candidates));
       ("baja"%string, firstn 3 candidates)] in
    dict_get scenario_ranges scenario candidates.

(** The list [candidates] that [generate_valid_combinations] fills, one
    candidate set per section index. *)
Definition section_candidates (sections : list section_t)
  (scenario : string) (global_min global_max : float) : list (list float) :=
  map (fun i =>
         if Nat.eqb i 0 then [py_round2 global_max]
         else if Nat.eqb i (length sections - 1) then [py_round2 global_min]
         else generate_candidate_prices global_min global_max scenario)
      (seq 0 (length sections)).

Definition generate_valid_combinations (sections : list section_t)
  (scenario : string) (global_min global_max margin_factor : float)
  : list (list float) :=
  let candidates :=
    section_candidates sections scenario global_min global_max in
  filter (margin_ok margin_factor) (islice (product candidates) enumeration_cap).

Definition sell_rates : list (string * float) :=
  [("alta"%string, 0.98); ("moderada"%string, 0.90); ("baja"%string, 0.85)].

(** The revenue expression of [heuristic_price_search]. *)
Definition revenue (combo : list float) (sections : list section_t)
  (scenario : string) : result float :=
  terms <- map_result
             (fun ps : float * section_t =>
                let (price, sec) := ps in
                n <- float_of_int (seats sec) ;;
                Ok (n * dict_get sell_rates scenario 0.95 * price))
             (combine combo sections) ;;
  Ok (py_sum terms).

(** The inner loop of a trial, [for _ in range(len(sections)-2)]. *)
Fixpoint build_interior (rnd : nat -> float) (n : nat)
  (global_min margin_factor : float) (combo : list float)
  (prev_price : float) (k : nat) : result (list float * nat) :=
  match n with
  | O => Ok (combo, k)
  | S n' =>
      q <- py_truediv prev_price margin_factor ;;
      let min_price := py_max global_min (q * 0.95) in
      max_price <- py_truediv prev_price margin_factor ;;
      let price := uniform min_price max_price (rnd k) in
      build_interior rnd n' global_min margin_factor
                     (combo ++ [py_round2 price]) price (S k)
  end.

Definition build_combo (rnd : nat -> float) (sections : list section_t)
  (global_min global_max margin_factor : float) (k : nat)
  : result (list float * nat) :=
  '(combo, k') <- build_interior rnd (length sections - 2) global_min
                                 margin_factor [py_round2 global_max]
                                 global_max k ;;
  Ok (combo ++ [py_round2 global_min], k').

Definition trial (rnd : nat -> float) (target : float)
  (sections : list section_t) (global_min global_max margin_factor : float)
  (scenario : string) (st : search_state) : result search_state :=
  let '(best_combo, best_diff, k) := st in
  '(combo, k') <- build_combo rnd sections global_min global_max
                              margin_factor k ;;
  if margin_ok margin_factor combo then
    revenue <- revenue combo sections scenario ;;
    if abs (revenue - target) <? best_diff
    then Ok (Some combo, abs (revenue - target), k')
    else Ok (best_combo, best_diff, k')
  else Ok (best_combo, best_diff, k').

Definition heuristic_price_search (rnd : nat -> float) (target : float)
  (sections : list section_t) (global_min global_max margin_factor : float)
  (scenario : string) : result (option (list float)) :=
  st <- for_range trial_count
          (trial rnd target sections global_min global_max margin_factor
                 scenario)
          (None, infinity, O) ;;
  Ok (fst (fst st)).

(** The sort key of [main]'s ranking step:
    [abs(sum(p * s['seats'] * 0.95 for p, s in zip(x, sections)) - target)]. *)
Definition ranking_key (sections : list section_t) (target : float)
  (x : list float) : result float :=
  terms <- map_result
             (fun ps : float * section_t =>
                let (p, s) := ps in
                n <- float_of_int (seats s) ;;
                Ok (p * n * 0.95))
             (combine x sections) ;;
  Ok (abs (py_sum terms - target)).

(** [top_combos = sorted(combos, key=...)[:3]] *)
Definition top_combos (sections : list section_t) (target : float)
  (combos : list (list float)) : result (list (list float)) :=
  ranked <- sorted_by_key (ranking_key sections target) combos ;;
  Ok (firstn 3 ranked).

End AppPricingBoletos.

(* ================================================================== *)
(** * The claims' vocabulary *)

(** The margin invariant as the specification words it: every adjacent pair
    of prices satisfies [vector[i] >= margin_factor * vector[i+1]]. *)
Definition margin_respected (margin_factor : float) (vector : list float)
  : Prop :=
  forall i a b,
    nth_error vector i = Some a ->
    nth_error vector (S i) = Some b ->
    py_ge a (margin_factor * b) = true.

(** The [i]-th point of the 9-point grid over [[global_min, global_max]],
    with step [(global_max - global_min) / 8]. *)
Definition grid_point (global_min global_max i : float) : float :=
  py_round2 (global_min + i * ((global_max - global_min) / 8)).

(** The window of the grid a scenario selects, as the specification lists
    it. *)
Definition scenario_window (global_min global_max : float)
  (scenario : string) : list float :=
  let g := grid_point global_min global_max in
  if String.eqb scenario "alta" then [g 6; g 7; g 8]
  else if String.eqb scenario "moderada" then [g 3; g 4; g 5]
  else if String.eqb scenario "baja" then [g 0; g 1; g 2]
  else [g 0; g 1; g 2; g 3; g 4; g 5; g 6; g 7; g 8].

(** The product in lexicographic order, as the specification describes it:
    the first pool's item changes slowest, the last pool's fastest. *)
Fixpoint lex_product {A : Type} (pools : list (list A)) : list (list A) :=
  match pools with
  | [] => [[]]
  | pool :: rest => flat_map (fun x => map (cons x) (lex_product rest)) pool
  end.

(** The per-section candidate lists of the basic exhaustive search: the
    scenario's window for every section. *)
Definition basic_pools (sections : list section_t) (scenario : string)
  (global_min global_max : float) : list (list float) :=
  repeat (PricingMaster.generate_candidate_prices global_min global_max scenario)
         (length sections).

(** The per-section candidate lists of the pinned exhaustive search, as the
    specification describes them for two sections or more: the rounded
    maximum for section 0, the rounded minimum for the last section, the
    scenario's window in between. *)
Definition pinned_pools (interior : nat) (scenario : string)
  (global_min global_max : float) : list (list float) :=
  [py_round2 global_max]
    :: repeat (AppPricingBoletos.generate_candidate_prices
                 global_min global_max scenario) interior
    ++ [[py_round2 global_min]].

(** One trial of a heuristic search, with the three things the two variants
    differ in: how a combination is built from the random stream, the test
    it must pass, and its distance to the target. *)
Definition loop_body (build : nat -> result (list float * nat))
  (accept : list float -> bool) (score : list float -> result float)
  (st : search_state) : result search_state :=
  let '(best_combo, best_diff, k) := st in
  '(combo, k') <- build k ;;
  if accept combo then
    diff <- score combo ;;
    if diff <? best_diff then Ok (Some combo, diff, k')
    else Ok (best_combo, best_diff, k')
  else Ok (best_combo, best_diff, k').

(** The combinations [n] successive trials build, the first one reading the
    random stream at position [k]. *)
Fixpoint built_combos (build : nat -> result (list float * nat)) (n k : nat)
  : result (list (list float)) :=
  match n with
  | O => Ok []
  | S n' =>
      '(combo, k') <- build k ;;
      rest <- built_combos build n' k' ;;
      Ok (combo :: rest)
  end.

(** What a search returns, given the combinations [passing] the margin test
    and their distances [dist] to the target: nothing exactly when no
    distance is below [+inf], else a passing combination that no other
    passing one beats. *)
Definition best_of (dist : list float -> float) (passing : list (list float))
  (found : option (list float)) : Prop :=
  (found = None <-> Forall (fun c => (dist c <? infinity) = false) passing)
  /\ forall c, found = Some c ->
       In c passing
       /\ (dist c <? infinity) = true
       /\ Forall (fun c' => (dist c' <? dist c) = false) passing
       /\ Forall (fun c' => is_nan (dist c') = false ->
                            (dist c <=? dist c') = true) passing.

(** The sell-through rate of a scenario, as the specification tabulates it. *)
Definition sell_through_rate (scenario : string) : float :=
  if String.eqb scenario "alta" then 0.98
  else if String.eqb scenario "moderada" then 0.90
  else if String.eqb scenario "baja" then 0.85
  else 0.95.

(** A seat count that Python converts to a float without [OverflowError]. *)
Definition seats_fit (s : section_t) : Prop :=
  is_infinity (float_of_Z (seats s)) = false.

(** The revenue model, as the specification writes it: the sum over the
    positions [i] of [sections[i].seats * rate * vector[i]]. *)
Definition revenue_model (rate : float) (vector : list float)
  (sections : list section_t) : float :=
  py_sum (map (fun i => float_of_Z (seats (nth i sections (mk_section "" 0)))
                        * rate * nth i vector 0)
              (seq 0 (Nat.min (length vector) (length sections)))).

Definition distance (rate : float) (sections : list section_t)
  (target : float) (vector : list float) : float :=
  abs (revenue_model rate vector sections - target).

(** The distance the ranking step sorts by: the revenue at the fixed rate
    0.95, each term computed as [price * seats * 0.95]. *)
Definition ranking_distance (sections : list section_t) (target : float)
  (vector : list float) : float :=
  abs (py_sum (map (fun i => nth i vector 0
                             * float_of_Z (seats (nth i sections
                                                      (mk_section "" 0)))
                             * 0.95)
                   (seq 0 (Nat.min (length vector) (length sections))))
       - target).

(** The distance to the target a trial of each heuristic computes. *)
Definition basic_score (target : float) (sections : list section_t)
  (combo : list float) : result float :=
  revenue <- PricingMaster.compute_revenue_for_combo combo sections "alta" ;;
  Ok (abs (revenue - target)).

Definition improved_score (target : float) (sections : list section_t)
  (scenario : string) (combo : list float) : result float :=
  revenue <- AppPricingBoletos.revenue combo sections scenario ;;
  Ok (abs (revenue - target)).

(** What [n] trials leave in the state, started with best distance [d0]:
    either no trial improved on [d0], or the best combination is one of the
    accepted ones, closer than [d0] and unbeaten. *)
Definition loop_outcome (accept : list float -> bool)
  (score : list float -> result float) (b0 : option (list float))
  (d0 : float) (combos : list (list float)) (b : option (list float))
  (d : float) : Prop :=
  Forall (fun c => accept c = true ->
                   exists dc, score c = Ok dc /\ (dc <? d) = false) combos
  /\ ((b = b0 /\ d = d0)
      \/ (exists c, b = Some c /\ In c combos /\ accept c = true
                    /\ score c = Ok d /\ (d <? d0) = true)).

(** The order and the equality of keys that the sort works with, and the
    list of [(key, item)] pairs it sorts. *)
Definition key_le {A : Type} (a b : float * A) : Prop :=
  (fst a <=? fst b) = true.

Definition key_is {A : Type} (k : float) (a : float * A) : bool := fst a =? k.

Definition decorate {A : Type} (key : A -> float) (l : list A)
  : list (float * A) :=
  map (fun v => (key v, v)) l.


(** Sample inputs: the sections of the specification's end-to-end
    scenario, a section whose seat count is too large for a float, and a
    random stream that always hands out [0.5]. *)
Definition three_sections : list section_t :=
  [mk_section "A" 500; mk_section "B" 500; mk_section "C" 500].

Definition two_sections : list section_t :=
  [mk_section "A" 500; mk_section "B" 500].

Definition huge_section : section_t := mk_section "A" (2 ^ 1024).

Definition half : nat -> float := fun _ => 0.5.

(* ================================================================== *)
(** * The callers: [main] and the plot *)

(** The three scenario codes [main] loops over. *)
Definition scenario_codes : list string :=
  ["alta"%string; "moderada"%string; "baja"%string].

(** A truth test of Python: an empty list is false. *)
Definition is_empty {A : Type} (l : list A) : bool :=
  match l with
  | [] => true
  | _ :: _ => false
  end.

Module PricingMasterMain.

(** [margin_factor = 1 + (margin / 100)], [margin] the slider's [int] (2 to
    15), which converts to a float exactly. *)
Definition margin_factor (margin : Z) : float := 1 + float_of_Z margin / 100.

(** What [main] does for one scenario once the button is pressed: the
    exhaustive search, and when it finds nothing the heuristic search and
    the revenue of its vector at the scenario's rate.  The result is what
    the page shows for the fallback: nothing, or the vector and its
    estimated revenue. *)
Definition scenario_fallback (rnd : nat -> float) (target : float)
  (sections : list section_t) (global_min global_max margin_factor : float)
  (scenario_code : string) : result (option (list float * float)) :=
  let combos :=
    PricingMaster.generate_combinations sections scenario_code global_min
                                        global_max margin_factor in
  if is_empty combos then
    best_combo <- PricingMaster.heuristic_search rnd target sections
                    global_min global_max margin_factor ;;
    match best_combo with
    | Some (p :: combo) =>
        revenue <- PricingMaster.compute_revenue_for_combo
                     (p :: combo) sections scenario_code ;;
        Ok (Some (p :: combo, revenue))
    | _ => Ok None
    end
  else Ok None.

End PricingMasterMain.

Module AppPricingBoletosMain.

(** [margin_factor = 1 + (margin / 100)], [margin] the slider's [int] (2 to
    20). *)
Definition margin_factor (margin : Z) : float := 1 + float_of_Z margin / 100.

(** The list [margins] of [plot_revenue_analysis]:
    [[(combo[i] - combo[i+1])/combo[i] for i in range(len(combo)-1)]]. *)
Definition margins (combo : list float) : result (list float) :=
  map_result (fun i => py_truediv (nth i combo 0 - nth (i + 1) combo 0)
                                  (nth i combo 0))
             (seq 0 (length combo - 1)).

(** What [main] does for one scenario up to the ranking: the pinned
    exhaustive search; when it finds nothing, the heuristic search, whose
    vector (if any) becomes the only combination; and the three
    combinations closest to the target.  An empty result is the branch that
    reports that no valid combination was found. *)
Definition scenario_top_combos (rnd : nat -> float) (target : float)
  (sections : list section_t) (global_min global_max margin_factor : float)
  (scenario_code : string) : result (list (list float)) :=
  let combos :=
    AppPricingBoletos.generate_valid_combinations
      sections scenario_code global_min global_max margin_factor in
  combos <- (if is_empty combos then
               best_combo <- AppPricingBoletos.heuristic_price_search
                               rnd target sections global_min global_max
                               margin_factor scenario_code ;;
               Ok (match best_combo with
                   | Some (p :: combo) => [p :: combo]
                   | _ => []
                   end)
             else Ok combos) ;;
  if is_empty combos then Ok []
  else AppPricingBoletos.top_combos sections target combos.

(** [total_revenue] of the report, and the revenue shown for each option:
    [sum(p * s['seats'] * sell_rate for p, s in zip(combo, sections))]. *)
Definition total_revenue (sell_rate : float) (combo : list float)
  (sections : list section_t) : result float :=
  terms <- map_result
             (fun ps : float * section_t =>
                let (p, s) := ps in
                n <- float_of_int (seats s) ;;
                Ok (p * n * sell_rate))
             (combine combo sections) ;;
  Ok (py_sum terms).

End AppPricingBoletosMain.

(** The number of tuples of a product: the product of the pools' sizes. *)
Fixpoint product_size {A : Type} (pools : list (list A)) : nat :=
  match pools with
  | [] => 1
  | pool :: rest => length pool * product_size rest
  end.

(** The relative gaps between consecutive prices, written by recursion on
    the vector. *)
Fixpoint price_gaps (combo : list float) : list float :=
  match combo with
  | a :: (b :: _) as rest => (a - b) / a :: price_gaps rest
  | _ => []
  end.

(* ================================================================== *)
(** * Order facts of binary64 comparisons *)

Ltac cmp_cases :=
  repeat match goal with
  | H : context [Z.compare ?a ?b] |- _ => destruct (Z.compare_spec a b)
  | |- context [Z.compare ?a ?b] => destruct (Z.compare_spec a b)
  | H : context [Pos.compare ?a ?b] |- _ => destruct (Pos.compare_spec a b)
  | |- context [Pos.compare ?a ?b] => destruct (Pos.compare_spec a b)
  end.

Ltac sf_cases x := destruct x as [[|]|[|]| |[|] ? ?].

Lemma SFcompare_antisym (x y : spec_float) :
  SFcompare y x = option_map CompOpp (SFcompare x y).
Proof.
  sf_cases x; sf_cases y; simpl; try reflexivity;
    change (Pos.compare_cont Eq) with Pos.compare;
    cmp_cases; subst; simpl; try reflexivity; try lia.
Qed.

Lemma SFcompare_trans (x y z : spec_float) (c1 c2 : comparison) :
  SFcompare x y = Some c1 -> SFcompare y z = Some c2 ->
  c1 <> Gt -> c2 <> Gt ->
  SFcompare x z = Some (match c1 with Eq => c2 | _ => Lt end).
Proof.
  sf_cases x; sf_cases y; simpl; try discriminate;
    sf_cases z; simpl; try discriminate;
    change (Pos.compare_cont Eq) with Pos.compare;
    intros H1 H2 N1 N2;
    injection H1 as <-; injection H2 as <-;
    try reflexivity; try congruence;
    cmp_cases; subst; simpl in *; try reflexivity; try congruence; try lia.
Qed.

Lemma SFcompare_total (x y : spec_float) :
  SFcompare x x = Some Eq -> SFcompare y y = Some Eq -> SFcompare x y <> None.
Proof.
  sf_cases x; sf_cases y; simpl; congruence.
Qed.

Lemma SFcompare_refl_of_some (x y : spec_float) (c : comparison) :
  SFcompare x y = Some c -> SFcompare x x = Some Eq /\ SFcompare y y = Some Eq.
Proof.
  sf_cases x; sf_cases y; simpl; try discriminate; intros _;
    change (Pos.compare_cont Eq) with Pos.compare;
    rewrite ?Z.compare_refl, ?Pos.compare_refl; auto.
Qed.

(** The three comparisons read off one [SFcompare]. *)
Ltac float_cmp :=
  unfold py_ge, is_nan in *;
  rewrite ?FloatAxioms.ltb_spec, ?FloatAxioms.leb_spec,
    ?FloatAxioms.eqb_spec in *;
  unfold SFltb, SFleb, SFeqb in *.

Lemma ltb_leb_false (a b : float) : (a <? b) = true -> (b <=? a) = false.
Proof.
  float_cmp. rewrite (SFcompare_antisym (Prim2SF a) (Prim2SF b)).
  destruct (SFcompare (Prim2SF a) (Prim2SF b)) as [[ | | ]|];
    simpl; congruence.
Qed.

Lemma ltb_eqb_false (a b : float) : (a <? b) = true -> (b =? a) = false.
Proof.
  float_cmp. rewrite (SFcompare_antisym (Prim2SF a) (Prim2SF b)).
  destruct (SFcompare (Prim2SF a) (Prim2SF b)) as [[ | | ]|];
    simpl; congruence.
Qed.

Lemma ltb_eqb_false_l (a b : float) : (a <? b) = true -> (a =? b) = false.
Proof.
  float_cmp.
  destruct (SFcompare (Prim2SF a) (Prim2SF b)) as [[ | | ]|]; congruence.
Qed.

Lemma ltb_leb (a b : float) : (a <? b) = true -> (a <=? b) = true.
Proof.
  float_cmp.
  destruct (SFcompare (Prim2SF a) (Prim2SF b)) as [[ | | ]|]; congruence.
Qed.

Lemma ltb_irrefl (a : float) : (a <? a) = false.
Proof.
  float_cmp.
  destruct (SFcompare (Prim2SF a) (Prim2SF a)) as [[ | | ]|] eqn:E;
    try reflexivity.
  destruct (SFcompare_refl_of_some _ _ _ E); congruence.
Qed.

Lemma ltb_trans (a b c : float) :
  (a <? b) = true -> (b <? c) = true -> (a <? c) = true.
Proof.
  float_cmp.
  destruct (SFcompare (Prim2SF a) (Prim2SF b)) as [[ | | ]|] eqn:E1;
    try discriminate.
  destruct (SFcompare (Prim2SF b) (Prim2SF c)) as [[ | | ]|] eqn:E2;
    try discriminate.
  rewrite (SFcompare_trans _ _ _ _ _ E1 E2); congruence.
Qed.

Lemma leb_trans (a b c : float) :
  (a <=? b) = true -> (b <=? c) = true -> (a <=? c) = true.
Proof.
  float_cmp.
  destruct (SFcompare (Prim2SF a) (Prim2SF b)) as [[ | | ]|] eqn:E1;
    try discriminate;
  destruct (SFcompare (Prim2SF b) (Prim2SF c)) as [[ | | ]|] eqn:E2;
    try discriminate;
  rewrite (SFcompare_trans _ _ _ _ _ E1 E2); congruence.
Qed.

(** Without NaN the order is total. *)
Lemma not_ltb_leb (a b : float) :
  is_nan a = false -> is_nan b = false -> (a <? b) = false -> (b <=? a) = true.
Proof.
  float_cmp. intros Ha Hb.
  rewrite (SFcompare_antisym (Prim2SF a) (Prim2SF b)).
  destruct (SFcompare (Prim2SF a) (Prim2SF a)) as [[ | | ]|] eqn:Ea;
    try discriminate.
  destruct (SFcompare (Prim2SF b) (Prim2SF b)) as [[ | | ]|] eqn:Eb;
    try discriminate.
  pose proof (SFcompare_total _ _ Ea Eb) as T.
  destruct (SFcompare (Prim2SF a) (Prim2SF b)) as [[ | | ]|];
    simpl; congruence.
Qed.

Lemma leb_not_ltb (a b : float) : (a <=? b) = true -> (b <? a) = false.
Proof.
  float_cmp. rewrite (SFcompare_antisym (Prim2SF a) (Prim2SF b)).
  destruct (SFcompare (Prim2SF a) (Prim2SF b)) as [[ | | ]|];
    simpl; congruence.
Qed.

Lemma ltb_not_nan (a b : float) :
  (a <? b) = true -> is_nan a = false /\ is_nan b = false.
Proof.
  float_cmp.
  destruct (SFcompare (Prim2SF a) (Prim2SF b)) as [c|] eqn:E;
    try discriminate.
  destruct (SFcompare_refl_of_some _ _ _ E) as [-> ->]; auto.
Qed.

(** Two keys equal to a third are not ordered by [<]. *)
Lemma eqb_eqb_not_ltb (a b k : float) :
  (a =? k) = true -> (b =? k) = true -> (a <? b) = false.
Proof.
  float_cmp.
  destruct (SFcompare (Prim2SF a) (Prim2SF k)) as [[ | | ]|] eqn:E1;
    try discriminate.
  destruct (SFcompare (Prim2SF b) (Prim2SF k)) as [[ | | ]|] eqn:E2;
    try discriminate.
  intros _ _.
  assert (E3 : SFcompare (Prim2SF k) (Prim2SF b) = Some Eq).
  { rewrite (SFcompare_antisym (Prim2SF b) (Prim2SF k)), E2. reflexivity. }
  rewrite (SFcompare_trans _ _ _ _ _ E1 E3); congruence.
Qed.

(* ================================================================== *)
(** * The built-ins at known values *)

(** [round(2.675, 2) == 2.67] (the float below 2.675), [round(1.005, 2) ==
    1.0], exact ties go to the even digit, a tiny negative number rounds to
    [-0.0], and floats without a fractional part, infinities and NaN are
    returned as they are. *)
Example py_round2_known_values :
  py_round2 2.675 = 2.67
  /\ py_round2 1.005 = 1
  /\ py_round2 0.125 = 0.12
  /\ py_round2 0.375 = 0.38
  /\ py_round2 98.095238095238102 = 98.1
  /\ py_round2 (-0.001) = neg_zero
  /\ py_round2 1e300 = 1e300
  /\ py_round2 infinity = infinity
  /\ py_round2 nan = nan.
Proof. vm_compute. repeat split; reflexivity. Qed.

(** [float(500) == 500.0], [float(2**53 + 1) == 9007199254740992.0], and
    [2**1024] is too large to convert. *)
Example float_of_int_known_values :
  float_of_int 500 = Ok 500
  /\ float_of_int (2 ^ 53 + 1) = Ok 9007199254740992
  /\ float_of_int (- (2 ^ 53 + 3)) = Ok (-9007199254740996)
  /\ float_of_int (2 ^ 1024) = Raise OverflowError.
Proof. vm_compute. repeat split; reflexivity. Qed.

Example py_truediv_known_values :
  py_truediv 200 1.05 = Ok 190.47619047619048
  /\ py_truediv 1 0 = Raise ZeroDivisionError
  /\ py_truediv 1 neg_zero = Raise ZeroDivisionError.
Proof. vm_compute. repeat split; reflexivity. Qed.

(* ================================================================== *)
(** * Candidate generator *)

Lemma candidates_grid (global_min global_max : float) :
  map (fun i => py_round2 (global_min + float_of_Z (Z.of_nat i)
                           * ((global_max - global_min) / float_of_Z (9 - 1))))
      (seq 0 (Z.to_nat 9))
  = let g := grid_point global_min global_max in
    [g 0; g 1; g 2; g 3; g 4; g 5; g 6; g 7; g 8].
Proof. reflexivity. Qed.

(** C2. When [global_max > global_min], both generators build the 9-point
    grid [round(global_min + i * step, 2)], [i] in [0..8], with
    [step = (global_max - global_min) / 8], and return its top three points
    for "alta", its middle three for "moderada", its bottom three for
    "baja", and the whole grid for any other scenario. *)
Theorem generate_candidate_prices_grid_window
  (global_min global_max : float) (scenario : string) :
  (global_min <? global_max) = true ->
  PricingMaster.generate_candidate_prices global_min global_max scenario
    = scenario_window global_min global_max scenario
  /\ AppPricingBoletos.generate_candidate_prices global_min global_max scenario
    = scenario_window global_min global_max scenario.
Proof.
  intros Hlt.
  unfold PricingMaster.generate_candidate_prices,
    AppPricingBoletos.generate_candidate_prices,
    PricingMaster.num_candidates, AppPricingBoletos.num_candidates.
  rewrite (ltb_eqb_false _ _ Hlt), (ltb_leb_false _ _ Hlt).
  rewrite candidates_grid. unfold scenario_window, dict_get.
  rewrite !(String.eqb_sym _ scenario).
  split;
    destruct (String.eqb scenario "alta");
    destruct (String.eqb scenario "moderada");
    destruct (String.eqb scenario "baja"); reflexivity.
Qed.

Lemma generate_candidate_prices_grid_window_witness :
  (50 <? 200) = true
  /\ PricingMaster.generate_candidate_prices 50 200 "alta"
    = scenario_window 50 200 "alta"
  /\ AppPricingBoletos.generate_candidate_prices 50 200 "alta"
    = scenario_window 50 200 "alta".
Proof.
  assert (H : (50 <? 200) = true) by (vm_compute; reflexivity).
  split; [exact H|].
  exact (generate_candidate_prices_grid_window 50 200 "alta" H).
Defined.

(** The grid of the specification's end-to-end scenario. *)
Example grid_50_200 :
  scenario_window 50 200 "otro"
  = [50; 68.75; 87.5; 106.25; 125; 143.75; 162.5; 181.25; 200].
Proof. vm_compute. reflexivity. Qed.

(** The variant of [appPricingBoletos.py] returns [[global_min]] on every
    [global_max <= global_min]. *)
Lemma generate_candidate_prices_degenerate
  (global_min global_max : float) (scenario : string) :
  (global_max <=? global_min) = true ->
  AppPricingBoletos.generate_candidate_prices global_min global_max scenario
  = [global_min].
Proof.
  intros H. unfold AppPricingBoletos.generate_candidate_prices.
  rewrite H. reflexivity.
Qed.

(** The variant of [PricingMaster.py] does so when the bounds are equal. *)
Lemma basic_generate_candidate_prices_equal_bounds
  (global_min global_max : float) (scenario : string) :
  (global_max =? global_min) = true ->
  PricingMaster.generate_candidate_prices global_min global_max scenario
  = [global_min].
Proof.
  intros H. unfold PricingMaster.generate_candidate_prices.
  rewrite H. reflexivity.
Qed.

(** On [global_max < global_min] it returns the scenario's window of the
    grid that descends from [global_min] to [global_max]. *)
Lemma basic_generate_candidate_prices_reversed_bounds
  (global_min global_max : float) (scenario : string) :
  (global_max <? global_min) = true ->
  PricingMaster.generate_candidate_prices global_min global_max scenario
  = scenario_window global_min global_max scenario.
Proof.
  intros Hlt.
  unfold PricingMaster.generate_candidate_prices,
    PricingMaster.num_candidates.
  rewrite (ltb_eqb_false_l _ _ Hlt), candidates_grid.
  unfold scenario_window.
  destruct (String.eqb scenario "alta");
    destruct (String.eqb scenario "moderada");
    destruct (String.eqb scenario "baja"); reflexivity.
Qed.

(** C3. [PricingMaster.generate_candidate_prices] tests [global_max ==
    global_min] only: with [global_max = 50 < global_min = 200] it returns a
    window of the descending grid, not [[global_min]]. *)
Theorem basic_generate_candidate_prices_strict_bounds :
  (50 <=? 200) = true
  /\ PricingMaster.generate_candidate_prices 200 50 "alta" = [87.5; 68.75; 50]
  /\ AppPricingBoletos.generate_candidate_prices 200 50 "alta" = [200].
Proof. vm_compute. auto. Qed.

(* ================================================================== *)
(** * The margin test *)

Lemma margin_ok_iff (margin_factor : float) (vector : list float) :
  margin_ok margin_factor vector = true
  <-> margin_respected margin_factor vector.
Proof.
  unfold margin_ok, margin_respected. rewrite forallb_forall. split.
  - intros H i a b Ha Hb.
    assert (Hlen : S i < length vector).
    { apply nth_error_Some. congruence. }
    specialize (H i). rewrite in_seq in H.
    rewrite (nth_error_nth vector i 0 Ha) in H.
    replace (i + 1)%nat with (S i) in H by lia.
    rewrite (nth_error_nth vector (S i) 0 Hb) in H.
    apply H. lia.
  - intros H j Hj. rewrite in_seq in Hj.
    apply (H j).
    + apply nth_error_nth'. lia.
    + replace (j + 1)%nat with (S j) by lia. apply nth_error_nth'. lia.
Qed.

Lemma margin_respected_short (margin_factor : float) (vector : list float) :
  length vector <= 1 -> margin_respected margin_factor vector.
Proof.
  intros Hlen i a b _ Hb.
  assert (S i < length vector) by (apply nth_error_Some; congruence). lia.
Qed.

Lemma In_firstn {A : Type} (n : nat) (l : list A) (x : A) :
  In x (firstn n l) -> In x l.
Proof.
  intros H. rewrite <- (firstn_skipn n l). apply in_or_app. now left.
Qed.

Lemma In_examined_filter {A : Type} (f : A -> bool) (n : nat) (l : list A)
  (x : A) :
  In x (filter f (islice l n)) -> In x l /\ f x = true.
Proof.
  unfold islice. rewrite filter_In. intros [H1 H2].
  split; [ eapply In_firstn; eassumption | assumption ].
Qed.

(* ================================================================== *)
(** * The Cartesian product and its order *)

Local Close Scope float_scope.

Lemma flat_map_flat_map {A B C : Type} (f : A -> list B) (g : B -> list C)
  (l : list A) :
  flat_map g (flat_map f l) = flat_map (fun x => flat_map g (f x)) l.
Proof.
  induction l as [|a l IH]; simpl; [reflexivity|].
  now rewrite flat_map_app, IH.
Qed.

Lemma flat_map_extend {A : Type} (x : list A) (pool : list A)
  (tails : list (list A)) :
  flat_map (fun z => map (app z) tails) (map (fun y => x ++ [y]) pool)
  = map (app x) (flat_map (fun y => map (cons y) tails) pool).
Proof.
  induction pool as [|y pool IH]; simpl; [reflexivity|].
  rewrite IH, map_app, map_map. f_equal.
  apply map_ext. intros t. now rewrite <- app_assoc.
Qed.

Lemma product_from (A : Type) (pools : list (list A)) (acc : list (list A)) :
  fold_left product_step pools acc
  = flat_map (fun x => map (app x) (lex_product pools)) acc.
Proof.
  revert acc. induction pools as [|pool pools IH]; intros acc; simpl.
  - induction acc as [|x acc IHacc]; simpl; [reflexivity|].
    now rewrite app_nil_r, <- IHacc.
  - rewrite IH. unfold product_step. rewrite flat_map_flat_map.
    apply flat_map_ext. intros x. apply flat_map_extend.
Qed.

Lemma product_lex {A : Type} (pools : list (list A)) :
  product pools = lex_product pools.
Proof.
  unfold product. rewrite product_from. simpl.
  rewrite app_nil_r. apply map_id.
Qed.

(** A tuple of the product takes its [i]-th item from the [i]-th pool. *)
Lemma In_lex_product {A : Type} (pools : list (list A)) (t : list A) :
  In t (lex_product pools) <-> Forall2 (fun x pool => In x pool) t pools.
Proof.
  revert t. induction pools as [|pool pools IH]; intros t; simpl.
  - split.
    + intros [<-|[]]. constructor.
    + intros H. inversion H. now left.
  - rewrite in_flat_map. split.
    + intros (x & Hx & Ht). rewrite in_map_iff in Ht.
      destruct Ht as (t' & <- & Ht'). constructor; [assumption|].
      now apply IH.
    + intros H. inversion H as [|x pool' t' pools' Hx Ht']; subst.
      exists x. split; [assumption|]. apply in_map. now apply IH.
Qed.

(** Positions in the product: with [P] tuples over the remaining pools, the
    tuple at position [p] starts with item [p / P] of the first pool and
    continues with the tuple at position [p mod P] over the rest. *)
Lemma nth_error_flat_map_blocks {A B : Type} (f : A -> list B) (P : nat)
  (l : list A) (p : nat) (x : A) :
  (forall a, length (f a) = P) -> 0 < P ->
  nth_error l (p / P) = Some x ->
  nth_error (flat_map f l) p = nth_error (f x) (p mod P).
Proof.
  intros Hlen HP. revert p. induction l as [|a l IH]; intros p Hx.
  - rewrite nth_error_nil in Hx. discriminate.
  - simpl. destruct (Nat.lt_ge_cases p P) as [Hp|Hp].
    + rewrite Nat.div_small in Hx by assumption. injection Hx as ->.
      rewrite Nat.mod_small by assumption.
      apply nth_error_app1. now rewrite Hlen.
    + rewrite nth_error_app2 by (rewrite Hlen; assumption).
      rewrite Hlen.
      assert (Hq : p = ((p - P) + 1 * P)%nat) by lia.
      assert (Hd : (p / P = S ((p - P) / P))%nat).
      { rewrite Hq at 1. rewrite Nat.div_add by lia. lia. }
      assert (Hm : (p mod P = (p - P) mod P)%nat).
      { rewrite Hq at 1. rewrite Nat.Div0.mod_add. reflexivity. }
      rewrite Hd in Hx. simpl in Hx. rewrite Hm. now apply IH.
Qed.

Lemma lex_product_position {A : Type} (pool : list A) (rest : list (list A))
  (p : nat) (x : A) (t : list A) :
  nth_error pool (p / length (lex_product rest)) = Some x ->
  nth_error (lex_product rest) (p mod length (lex_product rest)) = Some t ->
  nth_error (lex_product (pool :: rest)) p = Some (x :: t).
Proof.
  intros Hx Ht. simpl.
  assert (HP : 0 < length (lex_product rest)).
  { destruct (lex_product rest); [|simpl; lia].
    rewrite nth_error_nil in Ht. discriminate. }
  rewrite (nth_error_flat_map_blocks _ (length (lex_product rest)) pool p x);
    try assumption.
  - now rewrite nth_error_map, Ht.
  - intros a. apply length_map.
Qed.

Local Open Scope float_scope.

(* ================================================================== *)
(** * Exhaustive search *)

(** For a proper interval both generators return the scenario's window. *)
Lemma candidate_windows (global_min global_max : float) :
  (global_min <? global_max) = true ->
  forall scenario,
    PricingMaster.generate_candidate_prices global_min global_max scenario
      = scenario_window global_min global_max scenario
    /\ AppPricingBoletos.generate_candidate_prices
         global_min global_max scenario
      = scenario_window global_min global_max scenario.
Proof.
  intros Hlt scenario.
  unfold PricingMaster.generate_candidate_prices,
    AppPricingBoletos.generate_candidate_prices,
    PricingMaster.num_candidates, AppPricingBoletos.num_candidates.
  rewrite (ltb_eqb_false _ _ Hlt), (ltb_leb_false _ _ Hlt).
  rewrite candidates_grid. unfold scenario_window, dict_get.
  rewrite !(String.eqb_sym _ scenario).
  split;
    destruct (String.eqb scenario "alta");
    destruct (String.eqb scenario "moderada");
    destruct (String.eqb scenario "baja"); reflexivity.
Qed.

Lemma basic_candidate_lists (sections : list section_t) (scenario : string)
  (global_min global_max : float) :
  map (fun _ : nat =>
         PricingMaster.generate_candidate_prices global_min global_max scenario)
      (seq 0 (length sections))
  = basic_pools sections scenario global_min global_max.
Proof. unfold basic_pools. now rewrite map_const, length_seq. Qed.

Lemma section_candidates_pinned (sections : list section_t)
  (scenario : string) (global_min global_max : float) :
  (2 <= length sections)%nat ->
  AppPricingBoletos.section_candidates sections scenario global_min global_max
  = pinned_pools (length sections - 2) scenario global_min global_max.
Proof.
  unfold AppPricingBoletos.section_candidates, pinned_pools.
  destruct (length sections) as [|[|k]] eqn:E; try lia. intros _.
  replace (S (S k) - 2)%nat with k by lia.
  replace (S (S k) - 1)%nat with (S k) by lia.
  rewrite <- cons_seq, seq_S. simpl map at 1. rewrite map_app. simpl.
  rewrite Nat.eqb_refl. f_equal. f_equal.
  rewrite <- (length_seq k 1) at 2. rewrite <- map_const.
  apply map_ext_in. intros i Hi. rewrite in_seq in Hi.
  destruct i as [|i]; [lia|]. simpl.
  destruct (Nat.eqb_spec i k); [lia|reflexivity].
Qed.

(** C4. Both exhaustive searches return, in order, exactly the tuples
    that satisfy the margin constraint among the first 100,000 tuples of the
    Cartesian product of the per-section candidate lists, the product taken
    in lexicographic order (section 0 slowest, the last section fastest);
    they examine at most 100,000 tuples, and the result can be empty. *)
Theorem exhaustive_search_filters_capped_product
  (sections : list section_t) (scenario : string)
  (global_min global_max margin_factor : float) :
  let first_100000 := @firstn (list float) (Z.to_nat 100000) in
  let examined_basic :=
    first_100000
      (lex_product
         (repeat (PricingMaster.generate_candidate_prices
                    global_min global_max scenario) (length sections))) in
  let examined_pinned :=
    first_100000
      (lex_product (AppPricingBoletos.section_candidates
                      sections scenario global_min global_max)) in
  PricingMaster.generate_combinations
      sections scenario global_min global_max margin_factor
    = filter (margin_ok margin_factor) examined_basic
  /\ AppPricingBoletos.generate_valid_combinations
      sections scenario global_min global_max margin_factor
    = filter (margin_ok margin_factor) examined_pinned
  /\ (forall v, In v (PricingMaster.generate_combinations
                        sections scenario global_min global_max margin_factor)
                <-> In v examined_basic /\ margin_respected margin_factor v)
  /\ (forall v, In v (AppPricingBoletos.generate_valid_combinations
                        sections scenario global_min global_max margin_factor)
                <-> In v examined_pinned /\ margin_respected margin_factor v)
  /\ (Z.of_nat (length examined_basic) <= 100000)%Z
  /\ (Z.of_nat (length examined_pinned) <= 100000)%Z
  /\ (forall a b c d : float,
        lex_product [[a; b]; [c; d]] = [[a; c]; [a; d]; [b; c]; [b; d]])
  /\ PricingMaster.generate_combinations
       [mk_section "A" 500; mk_section "B" 500] "alta" 100 100 1.05 = []
  /\ AppPricingBoletos.generate_valid_combinations
       [mk_section "A" 500; mk_section "B" 500] "alta" 100 100 1.05 = [].
Proof.
  cbv zeta.
  assert (Hb : PricingMaster.generate_combinations
                 sections scenario global_min global_max margin_factor
               = filter (margin_ok margin_factor)
                   (firstn (Z.to_nat 100000)
                      (lex_product
                         (repeat (PricingMaster.generate_candidate_prices
                                    global_min global_max scenario)
                                 (length sections))))).
  { unfold PricingMaster.generate_combinations.
    now rewrite basic_candidate_lists, product_lex. }
  assert (Hp : AppPricingBoletos.generate_valid_combinations
                 sections scenario global_min global_max margin_factor
               = filter (margin_ok margin_factor)
                   (firstn (Z.to_nat 100000)
                      (lex_product (AppPricingBoletos.section_candidates
                                      sections scenario global_min
                                      global_max)))).
  { unfold AppPricingBoletos.generate_valid_combinations.
    now rewrite product_lex. }
  assert (Hcap : forall l : list (list float),
             (Z.of_nat (length (firstn (Z.to_nat 100000) l)) <= 100000)%Z).
  { intros l. rewrite length_firstn. lia. }
  split; [exact Hb|]. split; [exact Hp|].
  split; [|split; [|split; [|split; [|split; [|split]]]]].
  - intros v. now rewrite Hb, filter_In, margin_ok_iff.
  - intros v. now rewrite Hp, filter_In, margin_ok_iff.
  - apply Hcap.
  - apply Hcap.
  - reflexivity.
  - vm_compute. reflexivity.
  - vm_compute. reflexivity.
Qed.

(** The tuples the pinned search returns keep the pinned end points. *)
Lemma pinned_tuple_shape (interior : nat) (scenario : string)
  (global_min global_max : float) (v : list float) :
  In v (lex_product (pinned_pools interior scenario global_min global_max)) ->
  exists mid,
    v = py_round2 global_max :: mid ++ [py_round2 global_min]
    /\ length mid = interior
    /\ Forall (fun p => In p (AppPricingBoletos.generate_candidate_prices
                                global_min global_max scenario)) mid.
Proof.
  rewrite In_lex_product. unfold pinned_pools. intros H.
  inversion H as [|x pool v' pools' Hx Hrest]; subst.
  destruct Hx as [<-|[]].
  apply Forall2_app_inv_r in Hrest.
  destruct Hrest as (mid & tl & Hmid & Htl & ->).
  inversion Htl as [|y pool tl' pools'' Hy Hnil]; subst.
  inversion Hnil; subst. destruct Hy as [<-|[]].
  exists mid. split; [reflexivity|]. split.
  - rewrite (Forall2_length Hmid). apply repeat_length.
  - clear H Htl Hnil. remember (repeat _ interior) as pools eqn:E.
    revert interior E.
    induction Hmid as [|p pool mid pools Hp Hmid IH]; intros interior E.
    + constructor.
    + destruct interior as [|k]; [discriminate|]. simpl in E.
      injection E as -> ->. constructor; [assumption|]. now apply (IH k).
Qed.

(** C6. With two sections or more, the pinned exhaustive search gives
    section 0 the single candidate [round(global_max, 2)], the last section
    the single candidate [round(global_min, 2)] and every section in
    between the candidates of the scenario, which are its window of the
    grid when the interval is proper; what it returns is the margin filter
    of the first 100,000 tuples over these lists, so every vector it
    returns has one price per section, starts with [round(global_max, 2)],
    ends with [round(global_min, 2)] and has candidates in between. *)
Theorem pinned_search_end_points
  (sections : list section_t) (scenario : string)
  (global_min global_max margin_factor : float) :
  (2 <= length sections)%nat ->
  AppPricingBoletos.section_candidates sections scenario global_min global_max
    = [py_round2 global_max]
        :: repeat (AppPricingBoletos.generate_candidate_prices
                     global_min global_max scenario) (length sections - 2)
        ++ [[py_round2 global_min]]
  /\ AppPricingBoletos.generate_valid_combinations
       sections scenario global_min global_max margin_factor
     = filter (margin_ok margin_factor)
         (firstn (Z.to_nat 100000)
            (lex_product
               ([py_round2 global_max]
                  :: repeat (AppPricingBoletos.generate_candidate_prices
                               global_min global_max scenario)
                            (length sections - 2)
                  ++ [[py_round2 global_min]])))
  /\ ((global_min <? global_max) = true ->
      AppPricingBoletos.generate_candidate_prices
        global_min global_max scenario
      = scenario_window global_min global_max scenario)
  /\ forall v,
       In v (AppPricingBoletos.generate_valid_combinations
               sections scenario global_min global_max margin_factor) ->
       length v = length sections
       /\ hd_error v = Some (py_round2 global_max)
       /\ last v 0 = py_round2 global_min
       /\ exists mid,
            v = py_round2 global_max :: mid ++ [py_round2 global_min]
            /\ Forall (fun p =>
                         In p (AppPricingBoletos.generate_candidate_prices
                                 global_min global_max scenario)) mid.
Proof.
  intros Hn.
  pose proof (section_candidates_pinned sections scenario global_min
                global_max Hn) as Hc.
  unfold pinned_pools in Hc.
  split; [exact Hc|]. split; [|split].
  - unfold AppPricingBoletos.generate_valid_combinations.
    now rewrite product_lex, Hc.
  - intros Hlt. apply (candidate_windows global_min global_max Hlt).
  - intros v Hv. unfold AppPricingBoletos.generate_valid_combinations in Hv.
    apply In_examined_filter in Hv. destruct Hv as [Hv _].
    rewrite product_lex, section_candidates_pinned in Hv by assumption.
    apply pinned_tuple_shape in Hv.
    destruct Hv as (mid & -> & Hlen & Hmid).
    split; [|split; [reflexivity|split]].
    + simpl. rewrite length_app, Hlen. simpl. lia.
    + change (py_round2 global_max :: mid ++ [py_round2 global_min])
        with ((py_round2 global_max :: mid) ++ [py_round2 global_min]).
      apply last_last.
    + exists mid. split; [reflexivity|assumption].
Qed.

Lemma pinned_search_end_points_witness :
  (2 <= length three_sections)%nat
  /\ AppPricingBoletos.generate_valid_combinations
       three_sections "alta" 50 200 1.05
     = filter (margin_ok 1.05)
         (firstn (Z.to_nat 100000)
            (lex_product
               ([py_round2 200]
                  :: repeat (AppPricingBoletos.generate_candidate_prices
                               50 200 "alta") (length three_sections - 2)
                  ++ [[py_round2 50]])))
  /\ In [200; 181.25; 50]
        (AppPricingBoletos.generate_valid_combinations
           three_sections "alta" 50 200 1.05)
  /\ length [200; 181.25; 50] = length three_sections
  /\ hd_error [200; 181.25; 50] = Some (py_round2 200)
  /\ last [200; 181.25; 50] 0 = py_round2 50.
Proof.
  assert (H : (2 <= length three_sections)%nat) by (simpl; lia).
  assert (Hin : In [200; 181.25; 50]
                  (AppPricingBoletos.generate_valid_combinations
                     three_sections "alta" 50 200 1.05)).
  { vm_compute. right. left. reflexivity. }
  pose proof (pinned_search_end_points three_sections "alta"%string 50 200
                1.05 H) as (_ & Hf & _ & Hv).
  destruct (Hv [200; 181.25; 50] Hin) as (H1 & H2 & H3 & _).
  split; [exact H|]. split; [exact Hf|]. split; [exact Hin|].
  split; [exact H1|]. split; [exact H2|exact H3].
Defined.

(** The specification's end-to-end scenario: two valid combinations. *)
Example pinned_search_of_scenario :
  AppPricingBoletos.section_candidates three_sections "alta" 50 200
    = [[200]; [162.5; 181.25; 200]; [50]]
  /\ AppPricingBoletos.generate_valid_combinations
       three_sections "alta" 50 200 1.05
    = [[200; 162.5; 50]; [200; 181.25; 50]].
Proof. vm_compute. split; reflexivity. Qed.

(* ================================================================== *)
(** * The search loop *)

Lemma bind_Ok {A B : Type} (a : A) (k : A -> result B) :
  bind (Ok a) k = k a.
Proof. reflexivity. Qed.

Lemma bind_Ok_inv {A B : Type} (c : result A) (k : A -> result B) (b : B) :
  bind c k = Ok b -> exists a, c = Ok a /\ k a = Ok b.
Proof. destruct c as [a|e]; simpl; [eauto|discriminate]. Qed.

Lemma for_range_S {S : Type} (n : nat) (body : S -> result S) (s : S) :
  for_range (Datatypes.S n) body s = bind (body s) (for_range n body).
Proof. reflexivity. Qed.

Lemma built_combos_S (build : nat -> result (list float * nat)) (n k : nat) :
  built_combos build (S n) k
  = bind (build k)
         (fun ck => bind (built_combos build n (snd ck))
                         (fun rest => Ok (fst ck :: rest))).
Proof. simpl. destruct (build k) as [[c kc]|]; reflexivity. Qed.

Section SearchLoop.

Variable build : nat -> result (list float * nat).
Variable accept : list float -> bool.
Variable score : list float -> result float.

Lemma loop_body_inv (b0 : option (list float)) (d0 : float) (k0 : nat)
  (st : search_state) :
  loop_body build accept score (b0, d0, k0) = Ok st ->
  exists c kc,
    build k0 = Ok (c, kc)
    /\ ((accept c = false /\ st = (b0, d0, kc))
        \/ (exists dc, accept c = true /\ score c = Ok dc
                       /\ (dc <? d0) = false /\ st = (b0, d0, kc))
        \/ (exists dc, accept c = true /\ score c = Ok dc
                       /\ (dc <? d0) = true /\ st = (Some c, dc, kc))).
Proof.
  unfold loop_body. intros H.
  apply bind_Ok_inv in H. destruct H as ([c kc] & Hb & H).
  exists c, kc. split; [assumption|].
  destruct (accept c).
  - apply bind_Ok_inv in H. destruct H as (dc & Hs & H).
    destruct (dc <? d0) eqn:Hlt; injection H as <-.
    + right. right. exists dc. auto.
    + right. left. exists dc. auto.
  - injection H as <-. now left.
Qed.

Lemma for_range_loop_outcome (n : nat) :
  forall b0 d0 k0 b d k,
    for_range n (loop_body build accept score) (b0, d0, k0) = Ok (b, d, k) ->
    exists combos,
      built_combos build n k0 = Ok combos
      /\ length combos = n
      /\ loop_outcome accept score b0 d0 combos b d.
Proof.
  induction n as [|n IH]; intros b0 d0 k0 b d k H.
  - injection H as <- <- <-. exists []. repeat split; auto.
  - rewrite for_range_S in H. apply bind_Ok_inv in H.
    destruct H as ([[b1 d1] k1] & Hbody & H).
    apply loop_body_inv in Hbody. destruct Hbody as (c & kc & Hbuild & Hcase).
    assert (Hk : k1 = kc).
    { destruct Hcase as [[_ E]|[(dc & _ & _ & _ & E)|(dc & _ & _ & _ & E)]];
        now injection E. }
    subst k1. apply IH in H.
    destruct H as (rest & Hrest & Hlen & Hall & Hbest).
    exists (c :: rest). split.
    { rewrite built_combos_S, Hbuild. simpl. rewrite Hrest. reflexivity. }
    split; [simpl; lia|].
    destruct Hcase as [[Hacc E]|[(dc & Hacc & Hs & Hlt & E)
                                |(dc & Hacc & Hs & Hlt & E)]];
      injection E as -> ->.
    + (* the combination failed the test *)
      split.
      * constructor; [|assumption]. congruence.
      * destruct Hbest as [[-> ->]|(c' & -> & Hin & Hacc' & Hsc' & Hlt')];
          [now left|].
        right. exists c'. repeat split; simpl; auto.
    + (* the trial was not closer *)
      split.
      * constructor; [|assumption]. intros _. exists dc.
        split; [assumption|].
        destruct Hbest as [[_ ->]|(c' & _ & _ & _ & _ & Hlt')];
          [assumption|].
        destruct (dc <? d) eqn:E; [|reflexivity].
        rewrite (ltb_trans _ _ _ E Hlt') in Hlt. discriminate.
      * destruct Hbest as [[-> ->]|(c' & -> & Hin & Hacc' & Hsc' & Hlt')];
          [now left|].
        right. exists c'. repeat split; simpl; auto.
    + (* the trial took the lead *)
      destruct Hbest as [[-> ->]|(c' & -> & Hin & Hacc' & Hsc' & Hlt')].
      * split.
        -- constructor; [|assumption]. intros _. exists dc.
           split; [assumption|apply ltb_irrefl].
        -- right. exists c. repeat split; simpl; auto.
      * split.
        -- constructor; [|assumption]. intros _. exists dc.
           split; [assumption|].
           apply leb_not_ltb. now apply ltb_leb.
        -- right. exists c'. repeat split; simpl; auto.
           eapply ltb_trans; eassumption.
Qed.

(** The loop raises nothing when building and scoring raise nothing. *)
Lemma for_range_loop_total (n : nat) :
  (forall k, exists c k', build k = Ok (c, k')) ->
  (forall c, accept c = true -> exists d, score c = Ok d) ->
  forall st, exists st', for_range n (loop_body build accept score) st = Ok st'.
Proof.
  intros Hbuild Hscore. induction n as [|n IH]; intros [[b d] k].
  - simpl. eauto.
  - rewrite for_range_S. unfold loop_body at 1.
    destruct (Hbuild k) as (c & k' & ->). rewrite bind_Ok.
    destruct (accept c) eqn:Hacc.
    + destruct (Hscore c Hacc) as (dc & ->). rewrite bind_Ok.
      destruct (dc <? d); rewrite bind_Ok; apply IH.
    + rewrite bind_Ok. apply IH.
Qed.

Lemma built_combos_built (n : nat) :
  forall k combos,
    built_combos build n k = Ok combos ->
    Forall (fun c => exists k1 k2, build k1 = Ok (c, k2)) combos.
Proof.
  induction n as [|n IH]; intros k combos H.
  - injection H as <-. constructor.
  - rewrite built_combos_S in H. apply bind_Ok_inv in H.
    destruct H as ([c kc] & Hb & H).
    apply bind_Ok_inv in H. destruct H as (rest & Hr & H).
    injection H as <-. constructor; eauto.
Qed.

(** The outcome of a whole search, started from [(None, inf)], in the terms
    of [best_of]. *)
Lemma loop_outcome_best_of (dist : list float -> float)
  (combos : list (list float)) (b : option (list float)) (d : float) :
  (forall c, accept c = true -> score c = Ok (dist c)) ->
  loop_outcome accept score None infinity combos b d ->
  best_of dist (filter accept combos) b.
Proof.
  intros Hdist [Hall Hbest].
  assert (Hpass : Forall (fun c => (dist c <? d) = false)
                         (filter accept combos)).
  { rewrite Forall_forall in *. intros c Hc. rewrite filter_In in Hc.
    destruct Hc as [Hin Hacc]. destruct (Hall c Hin Hacc) as (dc & Hs & Hd).
    rewrite (Hdist c Hacc) in Hs. now injection Hs as ->. }
  split; [split|].
  - intros ->. destruct Hbest as [[_ ->]|(c & Hc & _)];
      [assumption|discriminate].
  - intros Hnone. destruct Hbest as [[-> _]|(c & -> & Hin & Hacc & Hs & Hlt)];
      [reflexivity|].
    rewrite Forall_forall in Hnone.
    rewrite (Hdist c Hacc) in Hs. injection Hs as <-.
    rewrite (Hnone c) in Hlt; [discriminate|].
    rewrite filter_In. now split.
  - intros c ->. destruct Hbest as [[E _]|(c' & E & Hin & Hacc & Hs & Hlt)];
      [discriminate|].
    injection E as <-.
    rewrite (Hdist c Hacc) in Hs. injection Hs as <-.
    repeat split; try assumption.
    + rewrite filter_In. now split.
    + rewrite Forall_forall in *. intros c' Hc' Hnan.
      apply not_ltb_leb; auto.
      apply (ltb_not_nan _ _ Hlt).
Qed.

End SearchLoop.

Lemma for_range_ext {S : Type} (f g : S -> result S) (n : nat) (s : S) :
  (forall x, f x = g x) -> for_range n f s = for_range n g s.
Proof.
  intros E. revert s. induction n as [|n IH]; intros s; simpl;
    [reflexivity|].
  rewrite E. destruct (g s); simpl; auto.
Qed.

(* ================================================================== *)
(** * Revenue model *)

Lemma map_result_total {A B : Type} (f : A -> result B) (g : A -> B)
  (l : list A) :
  Forall (fun a => f a = Ok (g a)) l -> map_result f l = Ok (map g l).
Proof.
  induction 1 as [|a l Ha _ IH]; simpl; [reflexivity|].
  now rewrite Ha, bind_Ok, IH, bind_Ok.
Qed.

Lemma float_of_int_fit (s : section_t) :
  seats_fit s -> float_of_int (seats s) = Ok (float_of_Z (seats s)).
Proof. unfold seats_fit, float_of_int. now intros ->. Qed.

Lemma Forall_combine_r {A B : Type} (P : B -> Prop) (l : list A)
  (l' : list B) :
  Forall P l' -> Forall (fun ab => P (snd ab)) (combine l l').
Proof.
  intros H. revert l. induction H as [|b l' Hb _ IH]; intros [|a l]; simpl;
    constructor; auto.
Qed.

Local Close Scope float_scope.

(** [zip] pairs the items position by position, up to the shorter length. *)
Lemma map_combine_positions {A B C : Type} (h : A -> B -> C) (da : A) (db : B)
  (l : list A) (l' : list B) :
  map (fun ab => h (fst ab) (snd ab)) (combine l l')
  = map (fun i => h (nth i l da) (nth i l' db))
        (seq 0 (Nat.min (length l) (length l'))).
Proof.
  revert l'. induction l as [|a l IH]; intros [|b l']; simpl;
    try reflexivity.
  f_equal. rewrite IH, <- seq_shift, map_map. reflexivity.
Qed.

Local Open Scope float_scope.

Lemma sell_rates_table (scenario : string) :
  dict_get PricingMaster.sell_rates scenario 0.95 = sell_through_rate scenario
  /\ dict_get AppPricingBoletos.sell_rates scenario 0.95
     = sell_through_rate scenario.
Proof.
  unfold sell_through_rate, PricingMaster.sell_rates,
    AppPricingBoletos.sell_rates, dict_get.
  rewrite !(String.eqb_sym _ scenario). split; reflexivity.
Qed.

Lemma compute_revenue_for_combo_model (combo : list float)
  (sections : list section_t) (scenario : string) :
  Forall seats_fit sections ->
  PricingMaster.compute_revenue_for_combo combo sections scenario
  = Ok (revenue_model (sell_through_rate scenario) combo sections).
Proof.
  intros Hfit. unfold PricingMaster.compute_revenue_for_combo.
  destruct (sell_rates_table scenario) as [-> _].
  rewrite (map_result_total _
             (fun ps => float_of_Z (seats (snd ps))
                        * sell_through_rate scenario * fst ps)).
  - rewrite bind_Ok. unfold revenue_model.
    now rewrite <- (map_combine_positions
                      (fun p s => float_of_Z (seats s)
                                  * sell_through_rate scenario * p)).
  - eapply Forall_impl; [|apply Forall_combine_r, Hfit].
    intros [p s] Hs. simpl in *. now rewrite (float_of_int_fit s Hs).
Qed.

Lemma revenue_model_of_improved (combo : list float)
  (sections : list section_t) (scenario : string) :
  Forall seats_fit sections ->
  AppPricingBoletos.revenue combo sections scenario
  = Ok (revenue_model (sell_through_rate scenario) combo sections).
Proof.
  intros Hfit. unfold AppPricingBoletos.revenue.
  destruct (sell_rates_table scenario) as [_ ->].
  rewrite (map_result_total _
             (fun ps => float_of_Z (seats (snd ps))
                        * sell_through_rate scenario * fst ps)).
  - rewrite bind_Ok. unfold revenue_model.
    now rewrite <- (map_combine_positions
                      (fun p s => float_of_Z (seats s)
                                  * sell_through_rate scenario * p)).
  - eapply Forall_impl; [|apply Forall_combine_r, Hfit].
    intros [p s] Hs. simpl in *. now rewrite (float_of_int_fit s Hs).
Qed.

(** C7, amended. When every seat count converts to a float, both revenue
    computations return the sum over the positions [i] of
    [sections[i].seats * rate * vector[i]], with rate 0.98 for "alta", 0.90
    for "moderada", 0.85 for "baja" and 0.95 for any other scenario, and
    raise nothing. *)
Theorem revenue_is_rate_weighted_sum (combo : list float)
  (sections : list section_t) (scenario : string) :
  Forall seats_fit sections ->
  PricingMaster.compute_revenue_for_combo combo sections scenario
    = Ok (revenue_model (sell_through_rate scenario) combo sections)
  /\ AppPricingBoletos.revenue combo sections scenario
    = Ok (revenue_model (sell_through_rate scenario) combo sections).
Proof.
  intros Hfit. split.
  - now apply compute_revenue_for_combo_model.
  - now apply revenue_model_of_improved.
Qed.

(* ================================================================== *)
(** * Heuristic search *)

Lemma py_truediv_nonzero (a b : float) :
  (b =? 0) = false -> py_truediv a b = Ok (a / b).
Proof. unfold py_truediv. now intros ->. Qed.

(** ** The basic variant *)

Lemma basic_trial_loop_body (rnd : nat -> float) (target : float)
  (sections : list section_t) (global_min global_max margin_factor : float)
  (st : search_state) :
  PricingMaster.trial rnd target sections global_min global_max margin_factor
                      st
  = loop_body
      (PricingMaster.build_combo rnd sections global_min margin_factor []
                                 global_max)
      (margin_ok margin_factor)
      (basic_score target sections) st.
Proof.
  destruct st as [[b d] k]. unfold PricingMaster.trial, loop_body.
  destruct (PricingMaster.build_combo rnd sections global_min margin_factor
              [] global_max k) as [[c kc]|]; [|reflexivity].
  rewrite !bind_Ok. destruct (margin_ok margin_factor c); [|reflexivity].
  unfold basic_score.
  destruct (PricingMaster.compute_revenue_for_combo c sections "alta");
    reflexivity.
Qed.

Lemma basic_build_combo_total (rnd : nat -> float)
  (sections : list section_t) (global_min margin_factor : float) :
  (margin_factor =? 0) = false ->
  forall combo prev k, exists c k',
    PricingMaster.build_combo rnd sections global_min margin_factor
                              combo prev k = Ok (c, k').
Proof.
  intros Hmf. induction sections as [|s rest IH]; intros combo prev k; simpl.
  - eauto.
  - rewrite (py_truediv_nonzero _ _ Hmf), bind_Ok. apply IH.
Qed.

Lemma basic_score_distance (target : float) (sections : list section_t)
  (c : list float) :
  Forall seats_fit sections ->
  basic_score target sections c = Ok (distance 0.98 sections target c).
Proof.
  intros Hfit. unfold basic_score.
  now rewrite (compute_revenue_for_combo_model c sections "alta" Hfit).
Qed.

(** ** The variant with pinned end points *)

Lemma improved_trial_loop_body (rnd : nat -> float) (target : float)
  (sections : list section_t) (global_min global_max margin_factor : float)
  (scenario : string) (st : search_state) :
  AppPricingBoletos.trial rnd target sections global_min global_max
                          margin_factor scenario st
  = loop_body
      (AppPricingBoletos.build_combo rnd sections global_min global_max
                                     margin_factor)
      (margin_ok margin_factor)
      (improved_score target sections scenario) st.
Proof.
  destruct st as [[b d] k]. unfold AppPricingBoletos.trial, loop_body.
  destruct (AppPricingBoletos.build_combo rnd sections global_min global_max
              margin_factor k) as [[c kc]|]; [|reflexivity].
  rewrite !bind_Ok. destruct (margin_ok margin_factor c); [|reflexivity].
  unfold improved_score.
  destruct (AppPricingBoletos.revenue c sections scenario); reflexivity.
Qed.

Lemma build_interior_shape (rnd : nat -> float) (n : nat)
  (global_min margin_factor : float) :
  forall combo prev k c k',
    AppPricingBoletos.build_interior rnd n global_min margin_factor
                                     combo prev k = Ok (c, k') ->
    exists drawn, c = combo ++ map py_round2 drawn /\ length drawn = n.
Proof.
  induction n as [|n IH]; intros combo prev k c k' H; simpl in H.
  - injection H as <- <-. exists []. now rewrite app_nil_r.
  - apply bind_Ok_inv in H. destruct H as (q & _ & H).
    apply bind_Ok_inv in H. destruct H as (hi & _ & H).
    apply IH in H. destruct H as (drawn & -> & Hlen).
    eexists (_ :: drawn). rewrite <- app_assoc. split; [reflexivity|].
    simpl. now rewrite Hlen.
Qed.

Lemma build_interior_total (rnd : nat -> float) (n : nat)
  (global_min margin_factor : float) :
  (margin_factor =? 0) = false ->
  forall combo prev k, exists c k',
    AppPricingBoletos.build_interior rnd n global_min margin_factor
                                     combo prev k = Ok (c, k').
Proof.
  intros Hmf. induction n as [|n IH]; intros combo prev k; simpl.
  - eauto.
  - rewrite (py_truediv_nonzero _ _ Hmf), !bind_Ok. apply IH.
Qed.

Lemma improved_build_combo_shape (rnd : nat -> float)
  (sections : list section_t) (global_min global_max margin_factor : float)
  (k : nat) (c : list float) (k' : nat) :
  AppPricingBoletos.build_combo rnd sections global_min global_max
                                margin_factor k = Ok (c, k') ->
  exists drawn,
    c = py_round2 global_max :: map py_round2 drawn ++ [py_round2 global_min]
    /\ length drawn = (length sections - 2)%nat.
Proof.
  unfold AppPricingBoletos.build_combo. intros H.
  apply bind_Ok_inv in H. destruct H as ([c0 k0] & Hb & H).
  injection H as <- <-. apply build_interior_shape in Hb.
  destruct Hb as (drawn & -> & Hlen). exists drawn. now split.
Qed.

Lemma basic_build_combo_shape (rnd : nat -> float)
  (sections : list section_t) (global_min margin_factor : float) :
  forall combo prev k c k',
    PricingMaster.build_combo rnd sections global_min margin_factor
                              combo prev k = Ok (c, k') ->
    exists drawn,
      c = combo ++ map py_round2 drawn /\ length drawn = length sections.
Proof.
  induction sections as [|s rest IH]; intros combo prev k c k' H; simpl in H.
  - injection H as <- <-. exists []. now rewrite app_nil_r.
  - apply bind_Ok_inv in H. destruct H as (hi & _ & H).
    apply IH in H. destruct H as (drawn & -> & Hlen).
    eexists (_ :: drawn). rewrite <- app_assoc. split; [reflexivity|].
    simpl. now rewrite Hlen.
Qed.

Lemma improved_build_combo_total (rnd : nat -> float)
  (sections : list section_t) (global_min global_max margin_factor : float) :
  (margin_factor =? 0) = false ->
  forall k, exists c k',
    AppPricingBoletos.build_combo rnd sections global_min global_max
                                  margin_factor k = Ok (c, k').
Proof.
  intros Hmf k. unfold AppPricingBoletos.build_combo.
  destruct (build_interior_total rnd (length sections - 2) global_min
              margin_factor Hmf [py_round2 global_max] global_max k)
    as (c & k' & ->).
  rewrite bind_Ok. eauto.
Qed.

Lemma improved_score_distance (target : float) (sections : list section_t)
  (scenario : string) (c : list float) :
  Forall seats_fit sections ->
  improved_score target sections scenario c
  = Ok (distance (sell_through_rate scenario) sections target c).
Proof.
  intros Hfit. unfold improved_score.
  now rewrite (revenue_model_of_improved c sections scenario Hfit).
Qed.

(** ** What a search that returns a combination returns *)

Lemma search_returns_built_and_accepted
  (build : nat -> result (list float * nat)) (accept : list float -> bool)
  (score : list float -> result float) (n : nat) (v : list float) :
  bind (for_range n (loop_body build accept score) (None, infinity, O))
       (fun st => Ok (fst (fst st))) = Ok (Some v) ->
  accept v = true /\ exists k1 k2, build k1 = Ok (v, k2).
Proof.
  intros H. apply bind_Ok_inv in H. destruct H as ([[b d] k] & Hloop & H).
  injection H as ->. apply for_range_loop_outcome in Hloop.
  destruct Hloop as (combos & Hcombos & _ & _ & Hbest).
  destruct Hbest as [[E _]|(c & E & Hin & Hacc & _)]; [discriminate|].
  injection E as <-. split; [assumption|].
  apply built_combos_built in Hcombos. rewrite Forall_forall in Hcombos.
  now apply Hcombos.
Qed.

Lemma basic_search_returns (rnd : nat -> float) (target : float)
  (sections : list section_t) (global_min global_max margin_factor : float)
  (v : list float) :
  PricingMaster.heuristic_search rnd target sections global_min global_max
                                 margin_factor = Ok (Some v) ->
  margin_ok margin_factor v = true
  /\ exists k1 k2,
       PricingMaster.build_combo rnd sections global_min margin_factor []
                                 global_max k1 = Ok (v, k2).
Proof.
  unfold PricingMaster.heuristic_search. intros H.
  rewrite (for_range_ext _ _ _ _ (basic_trial_loop_body rnd target sections
             global_min global_max margin_factor)) in H.
  now apply search_returns_built_and_accepted in H.
Qed.

Lemma improved_search_returns (rnd : nat -> float) (target : float)
  (sections : list section_t) (global_min global_max margin_factor : float)
  (scenario : string) (v : list float) :
  AppPricingBoletos.heuristic_price_search rnd target sections global_min
    global_max margin_factor scenario = Ok (Some v) ->
  margin_ok margin_factor v = true
  /\ exists k1 k2,
       AppPricingBoletos.build_combo rnd sections global_min global_max
                                     margin_factor k1 = Ok (v, k2).
Proof.
  unfold AppPricingBoletos.heuristic_price_search. intros H.
  rewrite (for_range_ext _ _ _ _ (improved_trial_loop_body rnd target sections
             global_min global_max margin_factor scenario)) in H.
  now apply search_returns_built_and_accepted in H.
Qed.

(** C1. Every vector an exhaustive search returns, and every vector a
    heuristic search returns, satisfies [vector[i] >= margin_factor *
    vector[i+1]] at every adjacent pair; a vector of length 0 or 1 does so
    vacuously, and the test the searches apply holds exactly of the vectors
    that do. *)
Theorem accepted_vectors_respect_margin (margin_factor : float)
  (vector : list float) :
  (forall sections scenario global_min global_max,
      In vector (PricingMaster.generate_combinations
                   sections scenario global_min global_max margin_factor) ->
      margin_respected margin_factor vector)
  /\ (forall sections scenario global_min global_max,
      In vector (AppPricingBoletos.generate_valid_combinations
                   sections scenario global_min global_max margin_factor) ->
      margin_respected margin_factor vector)
  /\ (forall rnd target sections global_min global_max,
      PricingMaster.heuristic_search
        rnd target sections global_min global_max margin_factor
        = Ok (Some vector) ->
      margin_respected margin_factor vector)
  /\ (forall rnd target sections global_min global_max scenario,
      AppPricingBoletos.heuristic_price_search
        rnd target sections global_min global_max margin_factor scenario
        = Ok (Some vector) ->
      margin_respected margin_factor vector)
  /\ ((length vector <= 1)%nat -> margin_respected margin_factor vector)
  /\ (margin_ok margin_factor vector = true
      <-> margin_respected margin_factor vector).
Proof.
  split; [|split; [|split; [|split; [|split]]]].
  - intros sections scenario global_min global_max H.
    apply In_examined_filter in H. now apply margin_ok_iff.
  - intros sections scenario global_min global_max H.
    apply In_examined_filter in H. now apply margin_ok_iff.
  - intros rnd target sections global_min global_max H.
    apply basic_search_returns in H. now apply margin_ok_iff.
  - intros rnd target sections global_min global_max scenario H.
    apply improved_search_returns in H. now apply margin_ok_iff.
  - apply margin_respected_short.
  - apply margin_ok_iff.
Qed.


(** ** The best of the trials *)

Lemma search_best_of (build : nat -> result (list float * nat))
  (accept : list float -> bool) (score : list float -> result float)
  (dist : list float -> float) (n : nat) :
  (forall k, exists c k', build k = Ok (c, k')) ->
  (forall c, score c = Ok (dist c)) ->
  exists combos found,
    built_combos build n O = Ok combos
    /\ length combos = n
    /\ bind (for_range n (loop_body build accept score) (None, infinity, O))
            (fun st => Ok (fst (fst st))) = Ok found
    /\ best_of dist (filter accept combos) found.
Proof.
  intros Hbuild Hscore.
  destruct (for_range_loop_total build accept score n Hbuild
              (fun c _ => ex_intro _ (dist c) (Hscore c))
              (None, infinity, O)) as ([[b d] k] & Hloop).
  destruct (for_range_loop_outcome _ _ _ _ _ _ _ _ _ _ Hloop)
    as (combos & Hcombos & Hlen & Hout).
  exists combos, b. rewrite Hloop, bind_Ok.
  split; [assumption|]. split; [assumption|]. split; [reflexivity|].
  eapply loop_outcome_best_of; [|eassumption]. auto.
Qed.

(** When every trial builds the same combination, the search returns it,
    unless its distance is not below [+inf]. *)
Lemma search_constant (build : nat -> result (list float * nat))
  (accept : list float -> bool) (score : list float -> result float)
  (dist : list float -> float) (n : nat) (c0 : list float) :
  (forall k, exists k', build k = Ok (c0, k')) ->
  (forall c, score c = Ok (dist c)) ->
  accept c0 = true -> (0 < n)%nat ->
  bind (for_range n (loop_body build accept score) (None, infinity, O))
       (fun st => Ok (fst (fst st)))
  = Ok (if dist c0 <? infinity then Some c0 else None).
Proof.
  intros Hbuild Hscore Hacc Hn.
  destruct (search_best_of build accept score dist n) as
    (combos & found & Hc & Hlen & Hrun & [Hnone Hsome]); [|assumption|].
  { intros k. destruct (Hbuild k) as (k' & E). eauto. }
  rewrite Hrun. f_equal.
  assert (Hall : forall c, In c combos -> c = c0).
  { apply built_combos_built in Hc. rewrite Forall_forall in Hc.
    intros c Hin. destruct (Hc c Hin) as (k1 & k2 & E).
    destruct (Hbuild k1) as (k' & E'). congruence. }
  assert (Hin : In c0 (filter accept combos)).
  { rewrite filter_In. split; [|assumption].
    destruct combos as [|c combos]; [simpl in Hlen; lia|].
    left. apply Hall. now left. }
  destruct (dist c0 <? infinity) eqn:E.
  - destruct found as [c|].
    + f_equal. destruct (Hsome c eq_refl) as (Hc' & _).
      rewrite filter_In in Hc'. now apply Hall.
    + destruct Hnone as [Hnone _]. specialize (Hnone eq_refl).
      rewrite Forall_forall in Hnone. rewrite (Hnone c0 Hin) in E.
      discriminate.
  - apply Hnone. rewrite Forall_forall. intros c Hc'.
    rewrite filter_In in Hc'. destruct Hc' as [Hc' _].
    now rewrite (Hall c Hc').
Qed.

Lemma trial_count_positive : (0 < trial_count)%nat.
Proof. unfold trial_count. lia. Qed.

Lemma basic_search_constant (rnd : nat -> float) (target : float)
  (sections : list section_t) (global_min global_max margin_factor : float)
  (c0 : list float) :
  Forall seats_fit sections ->
  (forall k, exists k',
      PricingMaster.build_combo rnd sections global_min margin_factor []
                                global_max k = Ok (c0, k')) ->
  margin_ok margin_factor c0 = true ->
  PricingMaster.heuristic_search rnd target sections global_min global_max
                                 margin_factor
  = Ok (if distance 0.98 sections target c0 <? infinity
        then Some c0 else None).
Proof.
  intros Hfit Hbuild Hok. unfold PricingMaster.heuristic_search.
  rewrite (for_range_ext _ _ _ _ (basic_trial_loop_body rnd target sections
             global_min global_max margin_factor)).
  apply search_constant; try assumption.
  - intros c. now apply basic_score_distance.
  - apply trial_count_positive.
Qed.

Lemma improved_search_constant (rnd : nat -> float) (target : float)
  (sections : list section_t) (global_min global_max margin_factor : float)
  (scenario : string) (c0 : list float) :
  Forall seats_fit sections ->
  (forall k, exists k',
      AppPricingBoletos.build_combo rnd sections global_min global_max
                                    margin_factor k = Ok (c0, k')) ->
  margin_ok margin_factor c0 = true ->
  AppPricingBoletos.heuristic_price_search rnd target sections global_min
    global_max margin_factor scenario
  = Ok (if distance (sell_through_rate scenario) sections target c0
           <? infinity
        then Some c0 else None).
Proof.
  intros Hfit Hbuild Hok. unfold AppPricingBoletos.heuristic_price_search.
  rewrite (for_range_ext _ _ _ _ (improved_trial_loop_body rnd target sections
             global_min global_max margin_factor scenario)).
  apply search_constant; try assumption.
  - intros c. now apply improved_score_distance.
  - apply trial_count_positive.
Qed.

Lemma trial_count_value (n : nat) : n = trial_count -> Z.of_nat n = 10000%Z.
Proof. intros ->. reflexivity. Qed.

(** C9, amended. When the margin factor is not zero and every seat count
    converts to a float, so that nothing is raised, each heuristic search
    runs exactly 10,000 trials on the random stream; it returns none
    exactly when no trial built a vector that passes the margin test at a
    distance [abs(revenue - target)] below [+inf]; otherwise it returns a
    passing vector that no passing trial beats, at most as far from the
    target as every passing trial whose distance is a number.  The basic
    variant measures revenue at the "alta" rate 0.98 whatever the scenario,
    the variant with pinned end points at the rate of the scenario given. *)
Theorem heuristic_search_best_of_trials (rnd : nat -> float) (target : float)
  (sections : list section_t) (global_min global_max margin_factor : float)
  (scenario : string) :
  (margin_factor =? 0) = false ->
  Forall seats_fit sections ->
  (exists combos found,
      built_combos (PricingMaster.build_combo rnd sections global_min
                      margin_factor [] global_max) trial_count O = Ok combos
      /\ Z.of_nat (length combos) = 10000%Z
      /\ PricingMaster.heuristic_search rnd target sections global_min
           global_max margin_factor = Ok found
      /\ best_of (distance 0.98 sections target)
                 (filter (margin_ok margin_factor) combos) found)
  /\ (exists combos found,
      built_combos (AppPricingBoletos.build_combo rnd sections global_min
                      global_max margin_factor) trial_count O = Ok combos
      /\ Z.of_nat (length combos) = 10000%Z
      /\ AppPricingBoletos.heuristic_price_search rnd target sections
           global_min global_max margin_factor scenario = Ok found
      /\ best_of (distance (sell_through_rate scenario) sections target)
                 (filter (margin_ok margin_factor) combos) found).
Proof.
  intros Hmf Hfit. split.
  - destruct (search_best_of
                (PricingMaster.build_combo rnd sections global_min
                   margin_factor [] global_max)
                (margin_ok margin_factor) (basic_score target sections)
                (distance 0.98 sections target) trial_count)
      as (combos & found & Hc & Hlen & Hrun & Hbest).
    + intros k. now apply basic_build_combo_total.
    + intros c. now apply basic_score_distance.
    + exists combos, found.
      split; [assumption|]. split; [now apply trial_count_value|].
      split; [|assumption].
      unfold PricingMaster.heuristic_search.
      now rewrite (for_range_ext _ _ _ _ (basic_trial_loop_body rnd target
                     sections global_min global_max margin_factor)).
  - destruct (search_best_of
                (AppPricingBoletos.build_combo rnd sections global_min
                   global_max margin_factor)
                (margin_ok margin_factor)
                (improved_score target sections scenario)
                (distance (sell_through_rate scenario) sections target)
                trial_count)
      as (combos & found & Hc & Hlen & Hrun & Hbest).
    + intros k. now apply improved_build_combo_total.
    + intros c. now apply improved_score_distance.
    + exists combos, found.
      split; [assumption|]. split; [now apply trial_count_value|].
      split; [|assumption].
      unfold AppPricingBoletos.heuristic_price_search.
      now rewrite (for_range_ext _ _ _ _ (improved_trial_loop_body rnd
                     target sections global_min global_max margin_factor
                     scenario)).
Qed.

(* ================================================================== *)
(** * Ranking *)

Section StableSort.

Context {A : Type}.

Lemma insert_sorted_perm (kx : float * A) (l : list (float * A)) :
  Permutation (insert_sorted kx l) (kx :: l).
Proof.
  induction l as [|ky l IH]; simpl; [reflexivity|].
  destruct (fst ky <? fst kx); [|reflexivity].
  rewrite IH. apply perm_swap.
Qed.

Lemma sort_keyed_perm (l : list (float * A)) : Permutation (sort_keyed l) l.
Proof.
  induction l as [|kx l IH]; simpl; [reflexivity|].
  rewrite insert_sorted_perm. now constructor.
Qed.

Lemma insert_sorted_sorted (kx : float * A) (l : list (float * A)) :
  is_nan (fst kx) = false ->
  Forall (fun ky => is_nan (fst ky) = false) l ->
  StronglySorted key_le l -> StronglySorted key_le (insert_sorted kx l).
Proof.
  intros Hx Hnan Hs. induction Hs as [|ky l Hs IH Hall]; simpl.
  - repeat constructor.
  - inversion Hnan as [|? ? Hy Hnan']; subst.
    destruct (fst ky <? fst kx) eqn:Hlt.
    + constructor; [now apply IH|].
      rewrite (insert_sorted_perm kx l). constructor; [|assumption].
      now apply ltb_leb.
    + assert (Hle : key_le kx ky) by (now apply not_ltb_leb).
      constructor; [now constructor|]. constructor; [assumption|].
      eapply Forall_impl; [|exact Hall]. intros kz Hz.
      unfold key_le in *. eapply leb_trans; eassumption.
Qed.

Lemma sort_keyed_sorted (l : list (float * A)) :
  Forall (fun kx => is_nan (fst kx) = false) l ->
  StronglySorted key_le (sort_keyed l).
Proof.
  induction 1 as [|kx l Hx Hl IH]; simpl; [constructor|].
  apply insert_sorted_sorted; try assumption.
  now rewrite (sort_keyed_perm l).
Qed.

(** Items with equal keys keep their order. *)
Lemma insert_sorted_stable (k : float) (kx : float * A)
  (l : list (float * A)) :
  filter (key_is k) (insert_sorted kx l) = filter (key_is k) (kx :: l).
Proof.
  induction l as [|ky l IH]; [reflexivity|].
  cbn [insert_sorted]. destruct (fst ky <? fst kx) eqn:Hlt; [|reflexivity].
  cbn [filter] in *. rewrite IH.
  destruct (key_is k ky) eqn:Hy; [|reflexivity].
  destruct (key_is k kx) eqn:Hx; [|reflexivity].
  unfold key_is in *. now rewrite (eqb_eqb_not_ltb _ _ _ Hy Hx) in Hlt.
Qed.

Lemma sort_keyed_stable (k : float) (l : list (float * A)) :
  filter (key_is k) (sort_keyed l) = filter (key_is k) l.
Proof.
  induction l as [|kx l IH]; [reflexivity|].
  cbn [sort_keyed]. rewrite insert_sorted_stable. cbn [filter].
  now rewrite IH.
Qed.

End StableSort.

Section SortByKey.

Context {A : Type} (key : A -> float).

Lemma combine_keys (l : list A) : combine (map key l) l = decorate key l.
Proof. induction l as [|v l IH]; simpl; [reflexivity|]. now rewrite IH. Qed.

Lemma decorated_sorted_keys (l : list A) :
  Forall (fun kv => fst kv = key (snd kv)) (sort_keyed (decorate key l)).
Proof.
  rewrite (sort_keyed_perm (decorate key l)). unfold decorate.
  rewrite Forall_map. now apply Forall_forall.
Qed.

Lemma sorted_values_perm (l : list A) :
  Permutation (map snd (sort_keyed (decorate key l))) l.
Proof.
  rewrite (sort_keyed_perm (decorate key l)). unfold decorate.
  rewrite map_map. simpl. now rewrite map_id.
Qed.

Lemma StronglySorted_values (l : list (float * A)) :
  Forall (fun kv => fst kv = key (snd kv)) l ->
  StronglySorted key_le l ->
  StronglySorted (fun a b => (key a <=? key b) = true) (map snd l).
Proof.
  intros Hk Hs. induction Hs as [|kv l Hs IH Hall]; simpl; constructor.
  - apply IH. now inversion Hk.
  - inversion Hk as [|? ? Hkv Hk']; subst. rewrite Forall_map.
    rewrite Forall_forall in *. intros kw Hw.
    specialize (Hall kw Hw). unfold key_le in Hall.
    now rewrite Hkv, (Hk' kw Hw) in Hall.
Qed.

Lemma filter_values (k : float) (l : list (float * A)) :
  Forall (fun kv => fst kv = key (snd kv)) l ->
  filter (fun v => key v =? k) (map snd l) = map snd (filter (key_is k) l).
Proof.
  induction 1 as [|kv l Hkv _ IH]; simpl; [reflexivity|].
  unfold key_is at 1. rewrite Hkv, IH.
  destruct (key (snd kv) =? k); reflexivity.
Qed.

Lemma sorted_values_stable (k : float) (l : list A) :
  filter (fun v => key v =? k) (map snd (sort_keyed (decorate key l)))
  = filter (fun v => key v =? k) l.
Proof.
  rewrite filter_values by apply decorated_sorted_keys.
  rewrite sort_keyed_stable.
  rewrite <- filter_values.
  - unfold decorate. rewrite map_map. simpl. now rewrite map_id.
  - unfold decorate. rewrite Forall_map. now apply Forall_forall.
Qed.

Lemma sorted_values_sorted (l : list A) :
  Forall (fun v => is_nan (key v) = false) l ->
  StronglySorted (fun a b => (key a <=? key b) = true)
                 (map snd (sort_keyed (decorate key l))).
Proof.
  intros Hnan. apply StronglySorted_values.
  - apply decorated_sorted_keys.
  - apply sort_keyed_sorted. unfold decorate. now rewrite Forall_map.
Qed.

End SortByKey.

Lemma ranking_key_distance (sections : list section_t) (target : float)
  (x : list float) :
  Forall seats_fit sections ->
  AppPricingBoletos.ranking_key sections target x
  = Ok (ranking_distance sections target x).
Proof.
  intros Hfit. unfold AppPricingBoletos.ranking_key.
  rewrite (map_result_total _
             (fun ps => fst ps * float_of_Z (seats (snd ps)) * 0.95)).
  - rewrite bind_Ok. unfold ranking_distance.
    now rewrite <- (map_combine_positions
                      (fun p s => p * float_of_Z (seats s) * 0.95)).
  - eapply Forall_impl; [|apply Forall_combine_r, Hfit].
    intros [p s] Hs. simpl in *. now rewrite (float_of_int_fit s Hs).
Qed.

Lemma firstn_3_length {A : Type} (l : list A) : (length (firstn 3 l) <= 3)%nat.
Proof. rewrite length_firstn. lia. Qed.

(** C8, amended. When every seat count converts to a float and no distance
    is NaN, the ranking step returns the first three (or fewer) vectors of
    the list sorted by non-decreasing [abs(revenue - target)], revenue
    taken at the fixed rate 0.95; vectors at equal distance keep the order
    they came in, and the first vector returned is at least as close to
    the target as every vector given. *)
Theorem ranking_returns_three_closest (sections : list section_t)
  (target : float) (combos : list (list float)) :
  Forall seats_fit sections ->
  Forall (fun v => is_nan (ranking_distance sections target v) = false)
         combos ->
  exists ranked,
    AppPricingBoletos.top_combos sections target combos
      = Ok (firstn 3 ranked)
    /\ (length (firstn 3 ranked) <= 3)%nat
    /\ Permutation ranked combos
    /\ StronglySorted
         (fun a b => (ranking_distance sections target a
                      <=? ranking_distance sections target b) = true)
         ranked
    /\ (forall k,
          filter (fun v => ranking_distance sections target v =? k) ranked
          = filter (fun v => ranking_distance sections target v =? k) combos)
    /\ (forall first v,
          hd_error (firstn 3 ranked) = Some first -> In v combos ->
          (ranking_distance sections target first
           <=? ranking_distance sections target v) = true).
Proof.
  intros Hfit Hnan.
  set (key := ranking_distance sections target).
  exists (map snd (sort_keyed (decorate key combos))).
  assert (Hperm := sorted_values_perm key combos).
  assert (Hsorted := sorted_values_sorted key combos Hnan).
  split; [|split; [|split; [|split; [|split]]]].
  - unfold AppPricingBoletos.top_combos, sorted_by_key.
    rewrite (map_result_total _ key).
    + now rewrite !bind_Ok, combine_keys.
    + apply Forall_forall. intros v _. now apply ranking_key_distance.
  - apply firstn_3_length.
  - exact Hperm.
  - exact Hsorted.
  - intros k. apply sorted_values_stable.
  - intros first v Hfirst Hv.
    destruct (map snd (sort_keyed (decorate key combos)))
      as [|v0 ranked] eqn:E; [discriminate|].
    simpl in Hfirst. injection Hfirst as ->.
    apply (Permutation_in _ (Permutation_sym Hperm)) in Hv.
    inversion Hsorted as [|? ? _ Hall]; subst.
    destruct Hv as [<-|Hv].
    + rewrite Forall_forall in Hnan.
      assert (Hn : is_nan (key first) = false).
      { apply Hnan. apply (Permutation_in _ Hperm). now left. }
      apply not_ltb_leb; auto. apply ltb_irrefl.
    + rewrite Forall_forall in Hall. now apply Hall.
Qed.

(* ================================================================== *)
(** * A product by a factor of at least one *)

Lemma digits2_pos_lower (m : positive) :
  (2 ^ (Zpos (digits2_pos m) - 1) <= Zpos m)%Z.
Proof.
  induction m as [m IH|m IH|]; cbn [digits2_pos].
  - rewrite Pos2Z.inj_succ.
    replace (Z.succ (Zpos (digits2_pos m)) - 1)%Z
      with (Z.succ (Zpos (digits2_pos m) - 1))%Z by lia.
    rewrite Z.pow_succ_r by lia. lia.
  - rewrite Pos2Z.inj_succ.
    replace (Z.succ (Zpos (digits2_pos m)) - 1)%Z
      with (Z.succ (Zpos (digits2_pos m) - 1))%Z by lia.
    rewrite Z.pow_succ_r by lia. lia.
  - simpl. lia.
Qed.













(* ================================================================== *)
(** * Vectors that descend, and the draws of a trial *)











(* ================================================================== *)
(** * Where the prices come from *)


Lemma basic_candidates_window_or_min (global_min global_max : float)
  (scenario : string) :
  PricingMaster.generate_candidate_prices global_min global_max scenario
    = [global_min]
  \/ PricingMaster.generate_candidate_prices global_min global_max scenario
    = scenario_window global_min global_max scenario.
Proof.
  unfold PricingMaster.generate_candidate_prices,
    PricingMaster.num_candidates.
  destruct (global_max =? global_min); [now left|right].
  rewrite candidates_grid. unfold scenario_window.
  destruct (String.eqb scenario "alta");
    destruct (String.eqb scenario "moderada");
    destruct (String.eqb scenario "baja"); reflexivity.
Qed.

Lemma improved_candidates_window_or_min (global_min global_max : float)
  (scenario : string) :
  AppPricingBoletos.generate_candidate_prices global_min global_max scenario
    = [global_min]
  \/ AppPricingBoletos.generate_candidate_prices global_min global_max scenario
    = scenario_window global_min global_max scenario.
Proof.
  unfold AppPricingBoletos.generate_candidate_prices,
    AppPricingBoletos.num_candidates.
  destruct (global_max <=? global_min); [now left|right].
  rewrite candidates_grid. unfold scenario_window, dict_get.
  rewrite !(String.eqb_sym _ scenario).
  destruct (String.eqb scenario "alta");
    destruct (String.eqb scenario "moderada");
    destruct (String.eqb scenario "baja"); reflexivity.
Qed.



(* ================================================================== *)
(** * The claims at concrete inputs *)

Lemma three_sections_fit : Forall seats_fit three_sections.
Proof. repeat constructor; vm_compute; reflexivity. Qed.

Lemma accepted_vectors_respect_margin_witness :
  In [200; 181.25; 50]
     (AppPricingBoletos.generate_valid_combinations
        three_sections "alta" 50 200 1.05)
  /\ py_ge 200 (1.05 * 181.25) = true
  /\ py_ge 181.25 (1.05 * 50) = true.
Proof.
  assert (H : In [200; 181.25; 50]
                (AppPricingBoletos.generate_valid_combinations
                   three_sections "alta" 50 200 1.05)).
  { vm_compute. right. left. reflexivity. }
  pose proof (proj1 (proj2 (accepted_vectors_respect_margin
                              1.05 [200; 181.25; 50]))
                three_sections "alta"%string 50 200 H) as M.
  split; [exact H|]. split.
  - exact (M 0%nat 200 181.25 eq_refl eq_refl).
  - exact (M 1%nat 181.25 50 eq_refl eq_refl).
Defined.

Lemma revenue_is_rate_weighted_sum_witness :
  Forall seats_fit three_sections
  /\ PricingMaster.compute_revenue_for_combo
       [200; 181.25; 50] three_sections "alta"
     = Ok (revenue_model (sell_through_rate "alta")
                         [200; 181.25; 50] three_sections)
  /\ AppPricingBoletos.revenue [200; 181.25; 50] three_sections "alta"
     = Ok (revenue_model (sell_through_rate "alta")
                         [200; 181.25; 50] three_sections).
Proof.
  assert (H : Forall seats_fit three_sections).
  { repeat constructor; vm_compute; reflexivity. }
  split; [exact H|].
  exact (revenue_is_rate_weighted_sum [200; 181.25; 50] three_sections
                                      "alta" H).
Defined.

(** The revenue of the scenario's best vector at the "alta" rate. *)
Example revenue_of_scenario_vector :
  PricingMaster.compute_revenue_for_combo
    [200; 181.25; 50] three_sections "alta" = Ok 211312.5.
Proof. vm_compute. reflexivity. Qed.

(** C7, the claim refuted: a seat count of [2 ^ 1024] cannot be converted
    to a float, and both revenue computations raise [OverflowError]. *)
Lemma revenue_raises_on_huge_seat_count :
  PricingMaster.compute_revenue_for_combo [100] [huge_section] "alta"
    = Raise OverflowError
  /\ AppPricingBoletos.revenue [100] [huge_section] "alta"
    = Raise OverflowError.
Proof. vm_compute. split; reflexivity. Qed.

Lemma ranking_returns_three_closest_witness :
  Forall seats_fit three_sections
  /\ Forall (fun v => is_nan (ranking_distance three_sections 100000 v)
                      = false)
            [[200; 162.5; 50]; [200; 181.25; 50]]
  /\ exists ranked,
       AppPricingBoletos.top_combos three_sections 100000
         [[200; 162.5; 50]; [200; 181.25; 50]] = Ok (firstn 3 ranked)
       /\ (length (firstn 3 ranked) <= 3)%nat
       /\ Permutation ranked [[200; 162.5; 50]; [200; 181.25; 50]]
       /\ StronglySorted
            (fun a b => (ranking_distance three_sections 100000 a
                         <=? ranking_distance three_sections 100000 b) = true)
            ranked
       /\ (forall k,
             filter (fun v => ranking_distance three_sections 100000 v =? k)
                    ranked
             = filter (fun v => ranking_distance three_sections 100000 v =? k)
                      [[200; 162.5; 50]; [200; 181.25; 50]])
       /\ (forall first v,
             hd_error (firstn 3 ranked) = Some first ->
             In v [[200; 162.5; 50]; [200; 181.25; 50]] ->
             (ranking_distance three_sections 100000 first
              <=? ranking_distance three_sections 100000 v) = true).
Proof.
  assert (H1 : Forall seats_fit three_sections).
  { repeat constructor; vm_compute; reflexivity. }
  assert (H2 : Forall (fun v => is_nan (ranking_distance three_sections
                                          100000 v) = false)
                      [[200; 162.5; 50]; [200; 181.25; 50]]).
  { repeat constructor; vm_compute; reflexivity. }
  split; [exact H1|]. split; [exact H2|].
  exact (ranking_returns_three_closest three_sections 100000
           [[200; 162.5; 50]; [200; 181.25; 50]] H1 H2).
Defined.

(** The ranking of the scenario's two vectors for a target of 100,000. *)
Example ranking_of_scenario_vectors :
  AppPricingBoletos.top_combos three_sections 100000
    [[200; 162.5; 50]; [200; 181.25; 50]]
  = Ok [[200; 162.5; 50]; [200; 181.25; 50]].
Proof. vm_compute. reflexivity. Qed.

(** C8, the claim refuted: with price bounds [-1e306] and [1e306] the
    pinned search returns three vectors whose revenue sums [+inf] and [-inf],
    so every distance is NaN; the ranking step returns them as they came,
    and their distances are not in non-decreasing order.  And with a seat
    count of [2 ^ 1024] the sort key raises [OverflowError]. *)
Lemma ranking_returns_unordered_or_raises :
  AppPricingBoletos.generate_valid_combinations
      three_sections "baja" (-1e306) 1e306 1.05
    = [[1e306; -1e306; -1e306]; [1e306; -7.5e305; -1e306];
       [1e306; -5e305; -1e306]]
  /\ AppPricingBoletos.top_combos three_sections 100000
       [[1e306; -1e306; -1e306]; [1e306; -7.5e305; -1e306];
        [1e306; -5e305; -1e306]]
    = Ok [[1e306; -1e306; -1e306]; [1e306; -7.5e305; -1e306];
          [1e306; -5e305; -1e306]]
  /\ (ranking_distance three_sections 100000 [1e306; -1e306; -1e306]
      <=? ranking_distance three_sections 100000 [1e306; -7.5e305; -1e306])
     = false
  /\ AppPricingBoletos.top_combos [huge_section] 100000 [[100]]
    = Raise OverflowError.
Proof. vm_compute. repeat split; reflexivity. Qed.

Lemma heuristic_search_best_of_trials_witness :
  (1.05 =? 0) = false
  /\ Forall seats_fit three_sections
  /\ (exists combos found,
        built_combos (PricingMaster.build_combo half three_sections 50
                        1.05 [] 200) trial_count O = Ok combos
        /\ Z.of_nat (length combos) = 10000%Z
        /\ PricingMaster.heuristic_search half 100000 three_sections 50
             200 1.05 = Ok found
        /\ best_of (distance 0.98 three_sections 100000)
                   (filter (margin_ok 1.05) combos) found)
  /\ (exists combos found,
        built_combos (AppPricingBoletos.build_combo half three_sections 50
                        200 1.05) trial_count O = Ok combos
        /\ Z.of_nat (length combos) = 10000%Z
        /\ AppPricingBoletos.heuristic_price_search half 100000
             three_sections 50 200 1.05 "baja" = Ok found
        /\ best_of (distance (sell_through_rate "baja") three_sections
                      100000)
                   (filter (margin_ok 1.05) combos) found).
Proof.
  assert (H1 : (1.05 =? 0) = false) by (vm_compute; reflexivity).
  assert (H2 : Forall seats_fit three_sections).
  { repeat constructor; vm_compute; reflexivity. }
  split; [exact H1|]. split; [exact H2|].
  exact (heuristic_search_best_of_trials half 100000 three_sections 50 200
           1.05 "baja" H1 H2).
Defined.

Lemma two_sections_fit : Forall seats_fit two_sections.
Proof. repeat constructor; vm_compute; reflexivity. Qed.

(** The two searches on the scenario's sections, every draw being [0.5]:
    all the trials build the same vector. *)
Example heuristic_searches_of_scenario :
  PricingMaster.heuristic_search half 100000 three_sections 50 200 1.05
    = Ok (Some [120.24; 82.26; 64.17])
  /\ AppPricingBoletos.heuristic_price_search half 100000 three_sections
       50 200 1.05 "alta"
    = Ok (Some [200; 185.71; 50]).
Proof.
  split.
  - rewrite (basic_search_constant half 100000 three_sections 50 200 1.05
               [120.24; 82.26; 64.17] three_sections_fit).
    + vm_compute. reflexivity.
    + intros k. exists (S (S (S k))). vm_compute. reflexivity.
    + vm_compute. reflexivity.
  - rewrite (improved_search_constant half 100000 three_sections 50 200 1.05
               "alta" [200; 185.71; 50] three_sections_fit).
    + vm_compute. reflexivity.
    + intros k. exists (S k). vm_compute. reflexivity.
    + vm_compute. reflexivity.
Qed.

(** C9, the claim refuted: with price bounds [1e306] and [2e306] and a
    margin factor of 1.15 the exhaustive search finds nothing, the trials of
    the heuristic search build vectors that pass the margin test, but their
    revenue overflows to [+inf], no distance is below the initial best
    distance [+inf], and the search returns none.  And with margin factor
    [0] the search raises [ZeroDivisionError] in its first trial, with a
    seat count of [2 ^ 1024] it raises [OverflowError]. *)
Lemma heuristic_search_none_despite_passing_trials :
  PricingMaster.generate_combinations two_sections "alta" 1e306 2e306 1.15
    = []
  /\ PricingMaster.heuristic_search half 100000 two_sections 1e306 2e306 1.15
    = Ok None
  /\ (exists combo k',
        PricingMaster.build_combo half two_sections 1e306 1.15 [] 2e306 O
          = Ok (combo, k')
        /\ margin_ok 1.15 combo = true
        /\ distance 0.98 two_sections 100000 combo = infinity)
  /\ AppPricingBoletos.heuristic_price_search half 100000 three_sections
       50 200 0 "alta"
    = Raise ZeroDivisionError
  /\ PricingMaster.heuristic_search half 100000 [huge_section] 50 200 1.05
    = Raise OverflowError.
Proof.
  split; [vm_compute; reflexivity|].
  split; [|split; [|split; vm_compute; reflexivity]].
  - rewrite (basic_search_constant half 100000 two_sections 1e306 2e306 1.15
               [1.3695652173913046e+306; 1.0954631379962195e+306]
               two_sections_fit).
    + vm_compute. reflexivity.
    + intros k. exists (S (S k)). vm_compute. reflexivity.
    + vm_compute. reflexivity.
  - exists [1.3695652173913046e+306; 1.0954631379962195e+306], 2%nat.
    vm_compute. repeat split; reflexivity.
Qed.




(* ================================================================== *)
(** * More on the exhaustive searches *)

(* ================================================================== *)
(** * The candidate windows together *)

(** The windows of the three scenarios are the consecutive thirds of the
    grid an unknown scenario gets, lowest prices first; a candidate list is
    never empty. *)
Theorem scenario_windows_partition_grid
  (global_min global_max : float) (scenario : string) :
  (global_min <? global_max) = true ->
  ~ In scenario scenario_codes ->
  (PricingMaster.generate_candidate_prices global_min global_max "baja"
   ++ PricingMaster.generate_candidate_prices global_min global_max "moderada"
   ++ PricingMaster.generate_candidate_prices global_min global_max "alta"
   = PricingMaster.generate_candidate_prices global_min global_max scenario)
  /\ (AppPricingBoletos.generate_candidate_prices global_min global_max "baja"
      ++ AppPricingBoletos.generate_candidate_prices
           global_min global_max "moderada"
      ++ AppPricingBoletos.generate_candidate_prices
           global_min global_max "alta"
      = AppPricingBoletos.generate_candidate_prices
          global_min global_max scenario)
  /\ length (PricingMaster.generate_candidate_prices
               global_min global_max scenario) = 9%nat.
Proof.
  intros Hlt Hs.
  assert (Hw : scenario_window global_min global_max scenario
               = scenario_window global_min global_max "baja"
                 ++ scenario_window global_min global_max "moderada"
                 ++ scenario_window global_min global_max "alta").
  { unfold scenario_window at 1. unfold scenario_codes in Hs.
    destruct (String.eqb_spec scenario "alta") as [->|_];
      [exfalso; apply Hs; simpl; tauto|].
    destruct (String.eqb_spec scenario "moderada") as [->|_];
      [exfalso; apply Hs; simpl; tauto|].
    destruct (String.eqb_spec scenario "baja") as [->|_];
      [exfalso; apply Hs; simpl; tauto|].
    reflexivity. }
  pose proof (candidate_windows global_min global_max Hlt) as W.
  rewrite !(proj1 (W _)), !(proj2 (W _)), Hw. repeat split.
Qed.


Local Close Scope float_scope.

Lemma length_lex_product {A : Type} (pools : list (list A)) :
  length (lex_product pools) = product_size pools.
Proof.
  induction pools as [|pool rest IH]; simpl; [reflexivity|].
  induction pool as [|x pool IHp]; simpl; [reflexivity|].
  now rewrite length_app, length_map, IHp, IH.
Qed.

Lemma product_size_repeat {A : Type} (pool : list A) (n : nat) :
  product_size (repeat pool n) = length pool ^ n.
Proof. induction n as [|n IH]; simpl; [reflexivity|]. now rewrite IH. Qed.

Lemma product_size_app {A : Type} (pools pools' : list (list A)) :
  product_size (pools ++ pools') = product_size pools * product_size pools'.
Proof.
  induction pools as [|pool rest IH]; simpl; [lia|]. rewrite IH. lia.
Qed.

Lemma islice_all {A : Type} (l : list A) :
  length l <= enumeration_cap -> islice l enumeration_cap = l.
Proof. intros H. unfold islice. now apply firstn_all2. Qed.

Lemma islice_count {A : Type} (l : list A) :
  Z.of_nat (length (islice l enumeration_cap))
  = Z.min 100000 (Z.of_nat (length l)).
Proof.
  unfold islice. rewrite length_firstn. unfold enumeration_cap. lia.
Qed.

Lemma small_power_below_cap (c n : nat) :
  c <= 3 -> n <= 10 -> c ^ n <= enumeration_cap.
Proof.
  intros Hc Hn. unfold enumeration_cap. apply Nat2Z.inj_le.
  rewrite Nat2Z.inj_pow, Z2Nat.id by lia.
  destruct c as [|c].
  - destruct n as [|n]; [simpl; lia|].
    rewrite Z.pow_0_l by lia. lia.
  - apply Z.le_trans with (3 ^ 10)%Z; [|now compute].
    apply Z.pow_le_mono; lia.
Qed.

Lemma lex_product_single {A : Type} (pool : list A) :
  lex_product [pool] = map (fun x => [x]) pool.
Proof.
  simpl. induction pool as [|x pool IH]; simpl; [reflexivity|].
  now rewrite IH.
Qed.

Lemma lex_product_singletons {A : Type} (l : list A) :
  lex_product (map (fun x => [x]) l) = [l].
Proof.
  induction l as [|x l IH]; simpl; [reflexivity|]. now rewrite IH.
Qed.

Lemma repeat_singleton_pools {A : Type} (x : A) (n : nat) :
  repeat [x] n = map (fun y => [y]) (repeat x n).
Proof. induction n as [|n IH]; simpl; [reflexivity|]. now rewrite IH. Qed.

Local Open Scope float_scope.

Lemma forallb_map_seq {A B : Type} (f : B -> bool) (g : A -> B) (l : list A) :
  forallb f (map g l) = forallb (fun x => f (g x)) l.
Proof. induction l as [|x l IH]; simpl; [reflexivity|]. now rewrite IH. Qed.

(** The margin test, price by price. *)
Lemma margin_ok_cons (margin_factor a b : float) (l : list float) :
  margin_ok margin_factor (a :: b :: l)
  = py_ge a (margin_factor * b) && margin_ok margin_factor (b :: l).
Proof.
  unfold margin_ok. cbn [length]. rewrite !Nat.sub_succ, !Nat.sub_0_r.
  rewrite <- cons_seq. cbn [forallb nth Nat.add]. f_equal.
  rewrite <- seq_shift, forallb_map_seq. reflexivity.
Qed.

Lemma margin_ok_short (margin_factor : float) (l : list float) :
  (length l <= 1)%nat -> margin_ok margin_factor l = true.
Proof.
  intros H. apply margin_ok_iff. now apply margin_respected_short.
Qed.

Lemma margin_ok_repeat (margin_factor x : float) (n : nat) :
  margin_ok margin_factor (repeat x n)
  = (n <=? 1)%nat || py_ge x (margin_factor * x).
Proof.
  destruct n as [|[|n]]; try reflexivity.
  induction n as [|n IH].
  - cbn [repeat]. rewrite margin_ok_cons.
    rewrite (margin_ok_short margin_factor [x]) by (simpl; lia).
    now rewrite andb_true_r.
  - cbn [repeat] in *. rewrite margin_ok_cons, IH. simpl.
    now destruct (py_ge x (margin_factor * x)).
Qed.

Lemma candidate_count (global_min global_max : float) (scenario : string) :
  let basic := PricingMaster.generate_candidate_prices
                 global_min global_max scenario in
  let improved := AppPricingBoletos.generate_candidate_prices
                    global_min global_max scenario in
  (length basic = 1 \/ length basic = 3 \/ length basic = 9)%nat
  /\ (length improved = 1 \/ length improved = 3 \/ length improved = 9)%nat
  /\ (In scenario scenario_codes ->
      (length basic <= 3)%nat /\ (length improved <= 3)%nat).
Proof.
  cbv zeta.
  assert (Hw : (length (scenario_window global_min global_max scenario) = 3
                \/ length (scenario_window global_min global_max scenario)
                   = 9)%nat
               /\ (In scenario scenario_codes ->
                   length (scenario_window global_min global_max scenario)
                   = 3%nat)).
  { unfold scenario_window, scenario_codes.
    destruct (String.eqb_spec scenario "alta") as [->|Ha]; [simpl; auto|].
    destruct (String.eqb_spec scenario "moderada") as [->|Hm];
      [simpl; auto|].
    destruct (String.eqb_spec scenario "baja") as [->|Hb]; [simpl; auto|].
    split; [right; reflexivity|].
    intros [E|[E|[E|[]]]]; congruence. }
  destruct Hw as [Hw Hk].
  split; [|split].
  - destruct (basic_candidates_window_or_min global_min global_max scenario)
      as [-> | ->]; [left; reflexivity|tauto].
  - destruct (improved_candidates_window_or_min global_min global_max
                scenario) as [-> | ->]; [left; reflexivity|tauto].
  - intros Hs. specialize (Hk Hs).
    destruct (basic_candidates_window_or_min global_min global_max scenario)
      as [-> | ->];
      destruct (improved_candidates_window_or_min global_min global_max
                  scenario) as [-> | ->];
      cbn [length]; lia.
Qed.


Lemma basic_search_as_filter (sections : list section_t) (scenario : string)
  (global_min global_max margin_factor : float) :
  PricingMaster.generate_combinations
    sections scenario global_min global_max margin_factor
  = filter (margin_ok margin_factor)
      (islice (lex_product (basic_pools sections scenario global_min
                              global_max)) enumeration_cap).
Proof.
  unfold PricingMaster.generate_combinations.
  now rewrite basic_candidate_lists, product_lex.
Qed.

Lemma pinned_search_as_filter (sections : list section_t) (scenario : string)
  (global_min global_max margin_factor : float) :
  AppPricingBoletos.generate_valid_combinations
    sections scenario global_min global_max margin_factor
  = filter (margin_ok margin_factor)
      (islice (lex_product (AppPricingBoletos.section_candidates
                              sections scenario global_min global_max))
              enumeration_cap).
Proof.
  unfold AppPricingBoletos.generate_valid_combinations.
  now rewrite product_lex.
Qed.

Lemma basic_product_size (sections : list section_t) (scenario : string)
  (global_min global_max : float) :
  product_size (basic_pools sections scenario global_min global_max)
  = (length (PricingMaster.generate_candidate_prices
               global_min global_max scenario) ^ length sections)%nat.
Proof. unfold basic_pools. apply product_size_repeat. Qed.

Lemma pinned_product_size (sections : list section_t) (scenario : string)
  (global_min global_max : float) :
  product_size (AppPricingBoletos.section_candidates
                  sections scenario global_min global_max)
  = (length (AppPricingBoletos.generate_candidate_prices
               global_min global_max scenario) ^ (length sections - 2))%nat.
Proof.
  destruct (Nat.lt_ge_cases (length sections) 2) as [H|H].
  - unfold AppPricingBoletos.section_candidates.
    destruct (length sections) as [|[|n]]; try lia; reflexivity.
  - rewrite section_candidates_pinned by assumption. unfold pinned_pools.
    cbn [product_size length].
    rewrite product_size_app, product_size_repeat. simpl. lia.
Qed.

(** Both exhaustive searches examine [min(100000, c ^ k)] tuples, [c] the
    number of candidate prices of the scenario and [k] the number of
    sections that take them: all the sections in the basic search, all but
    the first and the last in the pinned one.  Neither returns more vectors
    than it examines. *)
Theorem exhaustive_search_examined_count
  (sections : list section_t) (scenario : string)
  (global_min global_max margin_factor : float) :
  let basic_count :=
    Z.min 100000
      (Z.of_nat (length (PricingMaster.generate_candidate_prices
                           global_min global_max scenario))
       ^ Z.of_nat (length sections)) in
  let pinned_count :=
    Z.min 100000
      (Z.of_nat (length (AppPricingBoletos.generate_candidate_prices
                           global_min global_max scenario))
       ^ Z.of_nat (length sections - 2)) in
  Z.of_nat (length (islice (product
                              (map (fun _ : nat =>
                                      PricingMaster.generate_candidate_prices
                                        global_min global_max scenario)
                                   (seq 0 (length sections))))
                           enumeration_cap)) = basic_count
  /\ Z.of_nat (length (islice (product (AppPricingBoletos.section_candidates
                                         sections scenario global_min
                                         global_max))
                             enumeration_cap)) = pinned_count
  /\ (Z.of_nat (length (PricingMaster.generate_combinations
                          sections scenario global_min global_max
                          margin_factor)) <= basic_count)%Z
  /\ (Z.of_nat (length (AppPricingBoletos.generate_valid_combinations
                          sections scenario global_min global_max
                          margin_factor)) <= pinned_count)%Z.
Proof.
  cbv zeta.
  assert (Hb : Z.of_nat (length (islice (product
                 (map (fun _ : nat =>
                         PricingMaster.generate_candidate_prices
                           global_min global_max scenario)
                      (seq 0 (length sections)))) enumeration_cap))
               = Z.min 100000
                   (Z.of_nat (length (PricingMaster.generate_candidate_prices
                                        global_min global_max scenario))
                    ^ Z.of_nat (length sections))).
  { rewrite basic_candidate_lists, product_lex, islice_count.
    now rewrite length_lex_product, basic_product_size, Nat2Z.inj_pow. }
  assert (Hp : Z.of_nat (length (islice (product
                 (AppPricingBoletos.section_candidates
                    sections scenario global_min global_max))
                 enumeration_cap))
               = Z.min 100000
                   (Z.of_nat (length
                                (AppPricingBoletos.generate_candidate_prices
                                   global_min global_max scenario))
                    ^ Z.of_nat (length sections - 2))).
  { rewrite product_lex, islice_count.
    now rewrite length_lex_product, pinned_product_size, Nat2Z.inj_pow. }
  split; [exact Hb|]. split; [exact Hp|]. split.
  - rewrite <- Hb. unfold PricingMaster.generate_combinations.
    apply inj_le, filter_length_le.
  - rewrite <- Hp. unfold AppPricingBoletos.generate_valid_combinations.
    apply inj_le, filter_length_le.
Qed.

(** For the three scenarios [main] uses, the cap is out of reach with 10
    sections or fewer in the basic search and 12 or fewer in the pinned
    one: the result is the filter of the whole product. *)
Theorem known_scenarios_are_searched_in_full
  (sections : list section_t) (scenario : string)
  (global_min global_max margin_factor : float) :
  In scenario scenario_codes ->
  ((length sections <= 10)%nat ->
   PricingMaster.generate_combinations
     sections scenario global_min global_max margin_factor
   = filter (margin_ok margin_factor)
       (lex_product (basic_pools sections scenario global_min global_max)))
  /\ ((length sections <= 12)%nat ->
      AppPricingBoletos.generate_valid_combinations
        sections scenario global_min global_max margin_factor
      = filter (margin_ok margin_factor)
          (lex_product (AppPricingBoletos.section_candidates
                          sections scenario global_min global_max))).
Proof.
  intros Hs.
  destruct (candidate_count global_min global_max scenario)
    as (_ & _ & Hc). destruct (Hc Hs) as [Hb Hi].
  split; intros Hn.
  - rewrite basic_search_as_filter, islice_all; [reflexivity|].
    rewrite length_lex_product, basic_product_size.
    now apply small_power_below_cap.
  - rewrite pinned_search_as_filter, islice_all; [reflexivity|].
    rewrite length_lex_product, pinned_product_size.
    apply small_power_below_cap; [assumption|lia].
Qed.

Lemma known_scenarios_are_searched_in_full_witness :
  In "alta"%string scenario_codes
  /\ (length three_sections <= 10)%nat
  /\ PricingMaster.generate_combinations three_sections "alta" 50 200 1.05
     = filter (margin_ok 1.05)
         (lex_product (basic_pools three_sections "alta" 50 200))
  /\ AppPricingBoletos.generate_valid_combinations
       three_sections "alta" 50 200 1.05
     = filter (margin_ok 1.05)
         (lex_product (AppPricingBoletos.section_candidates
                         three_sections "alta" 50 200)).
Proof.
  assert (H : In "alta"%string scenario_codes) by (simpl; tauto).
  assert (H10 : (length three_sections <= 10)%nat) by (simpl; lia).
  assert (H12 : (length three_sections <= 12)%nat) by (simpl; lia).
  pose proof (known_scenarios_are_searched_in_full three_sections
                "alta"%string 50 200 1.05 H) as [Hb Hp].
  split; [exact H|]. split; [exact H10|].
  split; [exact (Hb H10)|exact (Hp H12)].
Defined.

Lemma filter_margin_singletons (margin_factor : float) (l : list float) :
  filter (margin_ok margin_factor) (map (fun p => [p]) l)
  = map (fun p => [p]) l.
Proof.
  induction l as [|p l IH]; cbn [map filter]; [reflexivity|].
  rewrite (margin_ok_short margin_factor [p]) by (simpl; lia).
  now rewrite IH.
Qed.

Lemma cap_above_nine (n : nat) : (n <= 9)%nat -> (n <= enumeration_cap)%nat.
Proof. unfold enumeration_cap. lia. Qed.

Lemma exhaustive_search_of_zero_or_one_section_aux (s : section_t)
  (scenario : string) (global_min global_max margin_factor : float) :
  PricingMaster.generate_combinations
      [s] scenario global_min global_max margin_factor
    = map (fun p => [p])
          (PricingMaster.generate_candidate_prices
             global_min global_max scenario)
  /\ PricingMaster.generate_combinations
       [s] scenario global_min global_max margin_factor <> [].
Proof.
  assert (H1 : PricingMaster.generate_combinations
                 [s] scenario global_min global_max margin_factor
               = map (fun p => [p])
                     (PricingMaster.generate_candidate_prices
                        global_min global_max scenario)).
  { rewrite basic_search_as_filter. unfold basic_pools. cbn [length repeat].
    rewrite lex_product_single, islice_all, filter_margin_singletons;
      [reflexivity|].
    rewrite length_map. apply cap_above_nine.
    destruct (candidate_count global_min global_max scenario)
      as ([E|[E|E]] & _); rewrite E; lia. }
  split; [exact H1|]. rewrite H1.
  destruct (candidate_count global_min global_max scenario) as (Hlen & _).
  destruct (PricingMaster.generate_candidate_prices
              global_min global_max scenario); [simpl in Hlen; lia|].
  discriminate.
Qed.


(** With no section both exhaustive searches return the empty vector alone;
    with one section the basic search returns every candidate price as a
    vector of its own, and the pinned search the rounded maximum alone:
    neither result is empty. *)
Theorem exhaustive_search_of_zero_or_one_section (s : section_t)
  (scenario : string) (global_min global_max margin_factor : float) :
  PricingMaster.generate_combinations
      [] scenario global_min global_max margin_factor = [[]]
  /\ AppPricingBoletos.generate_valid_combinations
      [] scenario global_min global_max margin_factor = [[]]
  /\ PricingMaster.generate_combinations
      [s] scenario global_min global_max margin_factor
     = map (fun p => [p])
           (PricingMaster.generate_candidate_prices
              global_min global_max scenario)
  /\ PricingMaster.generate_combinations
       [s] scenario global_min global_max margin_factor <> []
  /\ AppPricingBoletos.generate_valid_combinations
      [s] scenario global_min global_max margin_factor
     = [[py_round2 global_max]].
Proof.
  destruct (exhaustive_search_of_zero_or_one_section_aux s scenario
              global_min global_max margin_factor) as [H1 H2].
  split; [|split; [|split; [exact H1|split; [exact H2|]]]].
  - rewrite basic_search_as_filter. unfold basic_pools. cbn [length repeat].
    cbn [lex_product]. rewrite islice_all by (apply cap_above_nine; simpl; lia).
    reflexivity.
  - rewrite pinned_search_as_filter.
    unfold AppPricingBoletos.section_candidates. cbn [length seq map].
    cbn [lex_product]. rewrite islice_all by (apply cap_above_nine; simpl; lia).
    reflexivity.
  - rewrite pinned_search_as_filter.
    unfold AppPricingBoletos.section_candidates. cbn [length seq map Nat.eqb].
    rewrite lex_product_single. cbn [map].
    rewrite islice_all by (apply cap_above_nine; simpl; lia).
    cbn [filter].
    now rewrite (margin_ok_short margin_factor [py_round2 global_max])
      by (simpl; lia).
Qed.

Lemma pinned_two_sections_candidates (s1 s2 : section_t) (scenario : string)
  (global_min global_max : float) :
  AppPricingBoletos.section_candidates [s1; s2] scenario global_min global_max
  = [[py_round2 global_max]; [py_round2 global_min]].
Proof. reflexivity. Qed.

Lemma pinned_two_sections_search (s1 s2 : section_t) (scenario : string)
  (global_min global_max margin_factor : float) :
  AppPricingBoletos.generate_valid_combinations
    [s1; s2] scenario global_min global_max margin_factor
  = if py_ge (py_round2 global_max) (margin_factor * py_round2 global_min)
    then [[py_round2 global_max; py_round2 global_min]]
    else [].
Proof.
  rewrite pinned_search_as_filter, pinned_two_sections_candidates.
  cbn [lex_product flat_map map app].
  rewrite islice_all by (apply cap_above_nine; simpl; lia).
  cbn [filter]. rewrite margin_ok_cons.
  rewrite (margin_ok_short margin_factor [py_round2 global_min])
    by (simpl; lia).
  now rewrite andb_true_r.
Qed.

(** With two sections the pinned search has one vector to examine, the two
    rounded bounds, whatever the scenario: it returns that vector when the
    rounded maximum is at least the margin factor times the rounded
    minimum, and nothing otherwise. *)
Theorem pinned_search_of_two_sections (s1 s2 : section_t) (scenario : string)
  (global_min global_max margin_factor : float) :
  AppPricingBoletos.generate_valid_combinations
    [s1; s2] scenario global_min global_max margin_factor
  = if py_ge (py_round2 global_max) (margin_factor * py_round2 global_min)
    then [[py_round2 global_max; py_round2 global_min]]
    else [].
Proof. apply pinned_two_sections_search. Qed.


Lemma eqb_leb (a b : float) : (a =? b) = true -> (a <=? b) = true.
Proof.
  float_cmp.
  destruct (SFcompare (Prim2SF a) (Prim2SF b)) as [[ | | ]|]; congruence.
Qed.

Lemma singleton_pools_app {A : Type} (l l' : list A) :
  map (fun x => [x]) l ++ map (fun x => [x]) l'
  = map (fun x => [x]) (l ++ l').
Proof. now rewrite map_app. Qed.

(** With equal bounds every section has the one candidate [global_min]: the
    basic search returns the constant vector when [global_min >=
    margin_factor * global_min] or there is at most one section, and
    nothing otherwise; the pinned search (two sections or more) has the one
    vector of the rounded maximum, [global_min] for the sections in between
    and the rounded minimum, and returns it or nothing. *)
Theorem exhaustive_search_of_equal_bounds
  (sections : list section_t) (scenario : string)
  (global_min global_max margin_factor : float) :
  (global_max =? global_min) = true ->
  PricingMaster.generate_combinations
      sections scenario global_min global_max margin_factor
    = (if (length sections <=? 1)%nat
          || py_ge global_min (margin_factor * global_min)
       then [repeat global_min (length sections)]
       else [])
  /\ ((2 <= length sections)%nat ->
      AppPricingBoletos.generate_valid_combinations
        sections scenario global_min global_max margin_factor
      = (if margin_ok margin_factor
              (py_round2 global_max
                 :: repeat global_min (length sections - 2)
                 ++ [py_round2 global_min])
         then [py_round2 global_max
                 :: repeat global_min (length sections - 2)
                 ++ [py_round2 global_min]]
         else [])).
Proof.
  intros Heq. split.
  - rewrite basic_search_as_filter. unfold basic_pools.
    rewrite (basic_generate_candidate_prices_equal_bounds _ _ _ Heq).
    rewrite repeat_singleton_pools, lex_product_singletons.
    rewrite islice_all by (apply cap_above_nine; simpl; lia).
    cbn [filter]. now rewrite margin_ok_repeat.
  - intros Hn. rewrite pinned_search_as_filter.
    rewrite section_candidates_pinned by assumption. unfold pinned_pools.
    rewrite (generate_candidate_prices_degenerate _ _ _ (eqb_leb _ _ Heq)).
    rewrite repeat_singleton_pools.
    change ([[py_round2 global_min]])
      with (map (fun x : float => [x]) [py_round2 global_min]).
    rewrite singleton_pools_app.
    change ([py_round2 global_max]
              :: map (fun x : float => [x])
                   (repeat global_min (length sections - 2)
                    ++ [py_round2 global_min]))
      with (map (fun x : float => [x])
                (py_round2 global_max
                   :: repeat global_min (length sections - 2)
                   ++ [py_round2 global_min])).
    rewrite lex_product_singletons.
    rewrite islice_all by (apply cap_above_nine; simpl; lia).
    reflexivity.
Qed.

Lemma exhaustive_search_of_equal_bounds_witness :
  (100 =? 100) = true
  /\ (2 <= length two_sections)%nat
  /\ PricingMaster.generate_combinations two_sections "alta" 100 100 1.05
     = []
  /\ AppPricingBoletos.generate_valid_combinations
       two_sections "alta" 100 100 0.5
     = [[100; 100]].
Proof.
  assert (H : (100 =? 100) = true) by (vm_compute; reflexivity).
  assert (H2 : (2 <= length two_sections)%nat) by (simpl; lia).
  split; [exact H|]. split; [exact H2|]. split.
  - rewrite (proj1 (exhaustive_search_of_equal_bounds two_sections
                      "alta"%string 100 100 1.05 H)).
    vm_compute. reflexivity.
  - rewrite (proj2 (exhaustive_search_of_equal_bounds two_sections
                      "alta"%string 100 100 0.5 H) H2).
    vm_compute. reflexivity.
Defined.

Lemma basic_vectors_have_one_price_per_section_aux
  (sections : list section_t) (global_min global_max margin_factor : float) :
  (forall scenario v,
      In v (PricingMaster.generate_combinations
              sections scenario global_min global_max margin_factor) ->
      length v = length sections)
  /\ (forall rnd target v,
      PricingMaster.heuristic_search rnd target sections global_min
        global_max margin_factor = Ok (Some v) ->
      length v = length sections).
Proof.
  split.
  - intros scenario v H. rewrite basic_search_as_filter in H.
    apply In_examined_filter in H. destruct H as [H _].
    apply In_lex_product in H. rewrite (Forall2_length H).
    unfold basic_pools. apply repeat_length.
  - intros rnd target v H. apply basic_search_returns in H.
    destruct H as (_ & k1 & k2 & Hb).
    apply basic_build_combo_shape in Hb. destruct Hb as (drawn & -> & Hlen).
    cbn [app]. now rewrite length_map.
Qed.

(** The basic searches return one price per section. *)
Theorem basic_vectors_have_one_price_per_section
  (sections : list section_t) (global_min global_max margin_factor : float) :
  (forall scenario v,
      In v (PricingMaster.generate_combinations
              sections scenario global_min global_max margin_factor) ->
      length v = length sections)
  /\ (forall rnd target v,
      PricingMaster.heuristic_search rnd target sections global_min
        global_max margin_factor = Ok (Some v) ->
      length v = length sections).
Proof. apply basic_vectors_have_one_price_per_section_aux. Qed.


Lemma basic_vectors_have_one_price_per_section_witness :
  In [87.5; 68.75; 50]
     (PricingMaster.generate_combinations three_sections "baja" 50 200 1.05)
  /\ length [87.5; 68.75; 50] = length three_sections.
Proof.
  assert (H : In [87.5; 68.75; 50]
                (PricingMaster.generate_combinations
                   three_sections "baja" 50 200 1.05)).
  { vm_compute. left. reflexivity. }
  split; [exact H|].
  exact (proj1 (basic_vectors_have_one_price_per_section
                  three_sections 50 200 1.05)
           "baja"%string [87.5; 68.75; 50] H).
Defined.

(* ================================================================== *)
(** * The fallback *)

(** A search whose trials all fail the test leaves the state as it was. *)
Lemma search_keeps_state_when_all_rejected
  (build : nat -> result (list float * nat)) (accept : list float -> bool)
  (score : list float -> result float) (n : nat) :
  (forall k, exists c k', build k = Ok (c, k') /\ accept c = false) ->
  forall b d k, exists k',
    for_range n (loop_body build accept score) (b, d, k) = Ok (b, d, k').
Proof.
  intros H. induction n as [|n IH]; intros b d k.
  - exists k. reflexivity.
  - rewrite for_range_S. unfold loop_body at 1.
    destruct (H k) as (c & kc & -> & Hacc). rewrite bind_Ok, Hacc, bind_Ok.
    apply IH.
Qed.

Lemma improved_build_combo_two_sections (rnd : nat -> float)
  (sections : list section_t) (global_min global_max margin_factor : float)
  (k : nat) :
  (length sections <= 2)%nat ->
  AppPricingBoletos.build_combo rnd sections global_min global_max
                                margin_factor k
  = Ok ([py_round2 global_max; py_round2 global_min], k).
Proof.
  intros H. unfold AppPricingBoletos.build_combo.
  replace (length sections - 2)%nat with O by lia. reflexivity.
Qed.

(** With two sections the heuristic of [appPricingBoletos.py] builds, in
    every trial, the vector the pinned search examines: when the pinned
    search returns nothing, the heuristic returns none, whatever the random
    stream, the target and the scenario, and raises nothing. *)
Theorem fallback_finds_nothing_for_two_sections
  (rnd : nat -> float) (target : float) (s1 s2 : section_t)
  (global_min global_max margin_factor : float)
  (scenario scenario' : string) :
  AppPricingBoletos.generate_valid_combinations
    [s1; s2] scenario global_min global_max margin_factor = [] ->
  AppPricingBoletos.heuristic_price_search
    rnd target [s1; s2] global_min global_max margin_factor scenario'
  = Ok None.
Proof.
  rewrite pinned_two_sections_search. intros H.
  assert (Hrej : margin_ok margin_factor
                   [py_round2 global_max; py_round2 global_min] = false).
  { rewrite margin_ok_cons.
    destruct (py_ge (py_round2 global_max)
                    (margin_factor * py_round2 global_min));
      [discriminate|reflexivity]. }
  unfold AppPricingBoletos.heuristic_price_search.
  rewrite (for_range_ext _ _ _ _ (improved_trial_loop_body rnd target
             [s1; s2] global_min global_max margin_factor scenario')).
  destruct (search_keeps_state_when_all_rejected
              (AppPricingBoletos.build_combo rnd [s1; s2] global_min
                 global_max margin_factor)
              (margin_ok margin_factor)
              (improved_score target [s1; s2] scenario') trial_count)
    with (b := @None (list float)) (d := infinity) (k := O) as (k' & ->).
  - intros k. exists [py_round2 global_max; py_round2 global_min], k.
    split; [|assumption].
    apply improved_build_combo_two_sections. simpl. lia.
  - reflexivity.
Qed.

Lemma fallback_finds_nothing_for_two_sections_witness :
  AppPricingBoletos.generate_valid_combinations
    two_sections "alta" 100 100.01 1.05 = []
  /\ AppPricingBoletos.heuristic_price_search
       half 100000 two_sections 100 100.01 1.05 "alta"
     = Ok None.
Proof.
  assert (H : AppPricingBoletos.generate_valid_combinations
                two_sections "alta" 100 100.01 1.05 = []).
  { vm_compute. reflexivity. }
  split; [exact H|].
  exact (fallback_finds_nothing_for_two_sections half 100000
           (mk_section "A" 500) (mk_section "B" 500) 100 100.01 1.05
           "alta" "alta" H).
Defined.


(* ================================================================== *)
(** * Ranking, once more *)

Lemma map_result_length {A B : Type} (f : A -> result B) (l : list A)
  (bs : list B) :
  map_result f l = Ok bs -> length bs = length l.
Proof.
  revert bs. induction l as [|a l IH]; intros bs H; simpl in H.
  - now injection H as <-.
  - apply bind_Ok_inv in H. destruct H as (b & _ & H).
    apply bind_Ok_inv in H. destruct H as (bs' & Hbs & H).
    injection H as <-. simpl. now rewrite (IH bs' Hbs).
Qed.

(** Whatever the keys are, the ranking step returns vectors it was given,
    and as many as there are up to three. *)
Lemma top_combos_selects (sections : list section_t) (target : float)
  (combos ranked : list (list float)) :
  AppPricingBoletos.top_combos sections target combos = Ok ranked ->
  (forall v, In v ranked -> In v combos)
  /\ length ranked = Nat.min 3 (length combos).
Proof.
  unfold AppPricingBoletos.top_combos, sorted_by_key. intros H.
  apply bind_Ok_inv in H. destruct H as (sorted & Hs & H).
  assert (E : firstn 3 sorted = ranked) by congruence. subst ranked. clear H.
  apply bind_Ok_inv in Hs. destruct Hs as (keys & Hk & Hs).
  assert (E : map snd (sort_keyed (combine keys combos)) = sorted)
    by congruence.
  subst sorted. clear Hs.
  assert (Hperm := sort_keyed_perm (combine keys combos)).
  split.
  - intros v Hv. apply In_firstn in Hv. apply in_map_iff in Hv.
    destruct Hv as ([k v'] & <- & Hin).
    apply (Permutation_in _ Hperm) in Hin.
    now apply in_combine_r in Hin.
  - rewrite length_firstn, length_map, (Permutation_length Hperm).
    rewrite length_combine, (map_result_length _ _ _ Hk). lia.
Qed.

Lemma insert_sorted_head {A : Type} (kx : float * A) (l : list (float * A)) :
  Forall (key_le kx) l -> insert_sorted kx l = kx :: l.
Proof.
  intros H. destruct l as [|ky l]; [reflexivity|]. simpl.
  inversion H as [|? ? Hle _]; subst. unfold key_le in Hle.
  now rewrite (leb_not_ltb _ _ Hle).
Qed.

Lemma sort_keyed_sorted_id {A : Type} (l : list (float * A)) :
  StronglySorted key_le l -> sort_keyed l = l.
Proof.
  induction 1 as [|kx l Hs IH Hall]; simpl; [reflexivity|].
  rewrite IH. now apply insert_sorted_head.
Qed.

Lemma StronglySorted_firstn {A : Type} (R : A -> A -> Prop) (n : nat)
  (l : list A) :
  StronglySorted R l -> StronglySorted R (firstn n l).
Proof.
  intros H. revert n. induction H as [|a l Hs IH Hall]; intros [|n]; simpl;
    try constructor.
  - apply IH.
  - rewrite Forall_forall in *. intros x Hx. apply Hall.
    eapply In_firstn; eassumption.
Qed.

Lemma StronglySorted_decorate {A : Type} (key : A -> float) (l : list A) :
  StronglySorted (fun a b => (key a <=? key b) = true) l ->
  StronglySorted key_le (decorate key l).
Proof.
  induction 1 as [|a l Hs IH Hall]; simpl; constructor; [assumption|].
  unfold decorate. rewrite Forall_map. exact Hall.
Qed.

Lemma decorate_values {A : Type} (key : A -> float) (l : list A) :
  map snd (decorate key l) = l.
Proof. unfold decorate. rewrite map_map. simpl. apply map_id. Qed.

Lemma top_combos_of_keys (sections : list section_t) (target : float)
  (combos : list (list float)) :
  Forall seats_fit sections ->
  AppPricingBoletos.top_combos sections target combos
  = Ok (firstn 3 (map snd (sort_keyed
                             (decorate (ranking_distance sections target)
                                       combos)))).
Proof.
  intros Hfit. unfold AppPricingBoletos.top_combos, sorted_by_key.
  rewrite (map_result_total _ (ranking_distance sections target)).
  - now rewrite !bind_Ok, combine_keys.
  - apply Forall_forall. intros v _. now apply ranking_key_distance.
Qed.

(** Ranking what the ranking step returned changes nothing. *)
Theorem ranking_is_idempotent (sections : list section_t) (target : float)
  (combos ranked : list (list float)) :
  Forall seats_fit sections ->
  Forall (fun v => is_nan (ranking_distance sections target v) = false)
         combos ->
  AppPricingBoletos.top_combos sections target combos = Ok ranked ->
  AppPricingBoletos.top_combos sections target ranked = Ok ranked.
Proof.
  intros Hfit Hnan H. rewrite top_combos_of_keys in H by assumption.
  set (key := ranking_distance sections target) in *.
  assert (E : firstn 3 (map snd (sort_keyed (decorate key combos))) = ranked)
    by congruence.
  subst ranked. clear H. rewrite top_combos_of_keys by assumption.
  fold key.
  assert (Hs : StronglySorted (fun a b => (key a <=? key b) = true)
                 (firstn 3 (map snd (sort_keyed (decorate key combos))))).
  { apply StronglySorted_firstn. now apply sorted_values_sorted. }
  rewrite (sort_keyed_sorted_id _ (StronglySorted_decorate key _ Hs)).
  rewrite decorate_values. rewrite firstn_all2; [reflexivity|].
  rewrite length_firstn. lia.
Qed.

Lemma ranking_is_idempotent_witness :
  Forall seats_fit three_sections
  /\ Forall (fun v => is_nan (ranking_distance three_sections 100000 v)
                      = false)
            [[200; 181.25; 50]; [200; 162.5; 50]]
  /\ AppPricingBoletos.top_combos three_sections 100000
       [[200; 181.25; 50]; [200; 162.5; 50]]
     = Ok [[200; 162.5; 50]; [200; 181.25; 50]]
  /\ AppPricingBoletos.top_combos three_sections 100000
       [[200; 162.5; 50]; [200; 181.25; 50]]
     = Ok [[200; 162.5; 50]; [200; 181.25; 50]].
Proof.
  assert (H1 : Forall seats_fit three_sections).
  { repeat constructor; vm_compute; reflexivity. }
  assert (H2 : Forall (fun v => is_nan (ranking_distance three_sections
                                          100000 v) = false)
                      [[200; 181.25; 50]; [200; 162.5; 50]]).
  { repeat constructor; vm_compute; reflexivity. }
  assert (H3 : AppPricingBoletos.top_combos three_sections 100000
                 [[200; 181.25; 50]; [200; 162.5; 50]]
               = Ok [[200; 162.5; 50]; [200; 181.25; 50]]).
  { vm_compute. reflexivity. }
  split; [exact H1|]. split; [exact H2|]. split; [exact H3|].
  exact (ranking_is_idempotent three_sections 100000
           [[200; 181.25; 50]; [200; 162.5; 50]]
           [[200; 162.5; 50]; [200; 181.25; 50]] H1 H2 H3).
Defined.

(* ================================================================== *)
(** * One scenario of [main] *)

Lemma is_empty_true {A : Type} (l : list A) : is_empty l = true -> l = [].
Proof. destruct l; [reflexivity|discriminate]. Qed.

(** What [main] of [appPricingBoletos.py] ranks for a scenario: at most
    three vectors, each returned by the pinned search or, when that found
    nothing, the one vector of the heuristic; each respects the margin, and
    with two sections or more starts with the rounded maximum and ends with
    the rounded minimum.  When the pinned search finds something the random
    stream is not read, and an empty ranking means both searches found
    nothing. *)
Theorem main_ranks_valid_vectors (rnd : nat -> float) (target : float)
  (sections : list section_t) (global_min global_max margin_factor : float)
  (scenario_code : string) (ranked : list (list float)) :
  AppPricingBoletosMain.scenario_top_combos rnd target sections global_min
    global_max margin_factor scenario_code = Ok ranked ->
  (length ranked <= 3)%nat
  /\ Forall (margin_respected margin_factor) ranked
  /\ ((2 <= length sections)%nat ->
      Forall (fun v => hd_error v = Some (py_round2 global_max)
                       /\ last v 0 = py_round2 global_min
                       /\ length v = length sections) ranked)
  /\ (AppPricingBoletos.generate_valid_combinations
        sections scenario_code global_min global_max margin_factor <> [] ->
      Forall (fun v => In v (AppPricingBoletos.generate_valid_combinations
                               sections scenario_code global_min global_max
                               margin_factor)) ranked
      /\ forall rnd',
           AppPricingBoletosMain.scenario_top_combos rnd' target sections
             global_min global_max margin_factor scenario_code = Ok ranked)
  /\ (ranked = [] ->
      AppPricingBoletos.generate_valid_combinations
        sections scenario_code global_min global_max margin_factor = []
      /\ AppPricingBoletos.heuristic_price_search rnd target sections
           global_min global_max margin_factor scenario_code = Ok None).
Proof.
  unfold AppPricingBoletosMain.scenario_top_combos.
  set (found := AppPricingBoletos.generate_valid_combinations
                  sections scenario_code global_min global_max
                  margin_factor).
  assert (Hfound : forall v, In v found ->
            margin_respected margin_factor v
            /\ ((2 <= length sections)%nat ->
                hd_error v = Some (py_round2 global_max)
                /\ last v 0 = py_round2 global_min
                /\ length v = length sections)).
  { intros v Hv. split.
    - subst found. rewrite pinned_search_as_filter in Hv.
      apply In_examined_filter in Hv. now apply margin_ok_iff.
    - intros Hn. subst found. rewrite pinned_search_as_filter in Hv.
      apply In_examined_filter in Hv. destruct Hv as [Hv _].
      rewrite section_candidates_pinned in Hv by assumption.
      apply pinned_tuple_shape in Hv. destruct Hv as (mid & -> & Hlen & _).
      split; [reflexivity|]. split.
      + change (py_round2 global_max :: mid ++ [py_round2 global_min])
          with ((py_round2 global_max :: mid) ++ [py_round2 global_min]).
        apply last_last.
      + cbn [length]. rewrite length_app, Hlen. cbn [length]. lia. }
  destruct (is_empty found) eqn:Hempty.
  - (* the heuristic is consulted *)
    apply is_empty_true in Hempty. intros H.
    apply bind_Ok_inv in H. destruct H as (combos & Hc & H).
    apply bind_Ok_inv in Hc. destruct Hc as (best & Hbest & Hc).
    injection Hc as <-.
    assert (Hb : match best with
                 | Some (p :: combo) =>
                     ranked = [p :: combo]
                 | _ => ranked = []
                 end).
    { destruct best as [[|p combo]|]; cbn [is_empty] in H;
        try (now injection H as <-).
      apply top_combos_selects in H. destruct H as [Hin Hlen].
      cbn [length Nat.min] in Hlen.
      destruct ranked as [|v [|w ranked]]; try discriminate.
      f_equal. destruct (Hin v (or_introl eq_refl)) as [E|[]]. now symmetry. }
    assert (Hnone : forall P : Prop, found <> [] -> P).
    { intros P Hne. now rewrite Hempty in Hne. }
    destruct best as [[|p combo]|].
    + (* the heuristic never returns an empty vector *)
      apply improved_search_returns in Hbest.
      destruct Hbest as (_ & k1 & k2 & Hb').
      apply improved_build_combo_shape in Hb'.
      destruct Hb' as (drawn & E' & _). discriminate.
    + subst ranked. apply improved_search_returns in Hbest.
      destruct Hbest as (Hok & k1 & k2 & Hb').
      apply improved_build_combo_shape in Hb'.
      destruct Hb' as (drawn & E' & Hlen).
      split; [simpl; lia|]. split.
      { constructor; [|constructor]. now apply margin_ok_iff. }
      split.
      { intros Hn. constructor; [|constructor]. rewrite E'.
        split; [reflexivity|]. split.
        - change (py_round2 global_max :: map py_round2 drawn
                    ++ [py_round2 global_min])
            with ((py_round2 global_max :: map py_round2 drawn)
                    ++ [py_round2 global_min]).
          apply last_last.
        - cbn [length]. rewrite length_app, length_map, Hlen. cbn [length].
          lia. }
      split; [apply Hnone|discriminate].
    + subst ranked. split; [simpl; lia|]. split; [constructor|].
      split; [intros _; constructor|]. split; [apply Hnone|].
      intros _. now split.
  - (* the pinned search found something *)
    rewrite bind_Ok, Hempty. intros H.
    pose proof (top_combos_selects _ _ _ _ H) as [Hin Hlen].
    assert (Hall : Forall (fun v => In v found) ranked).
    { apply Forall_forall. exact Hin. }
    split; [lia|]. split.
    { eapply Forall_impl; [|exact Hall]. intros v Hv. now apply Hfound. }
    split.
    { intros Hn. eapply Forall_impl; [|exact Hall].
      intros v Hv. now apply Hfound. }
    split.
    { intros _. split; [exact Hall|]. intros rnd'.
      exact H. }
    intros ->. destruct found; [discriminate|]. simpl in Hlen. lia.
Qed.


Lemma main_ranks_valid_vectors_witness :
  AppPricingBoletosMain.scenario_top_combos
      half 100000 three_sections 50 200 1.05 "alta"
    = Ok [[200; 162.5; 50]; [200; 181.25; 50]]
  /\ Nat.le (length [[200; 162.5; 50]; [200; 181.25; 50]]) 3
  /\ Forall (margin_respected 1.05) [[200; 162.5; 50]; [200; 181.25; 50]].
Proof.
  assert (H : AppPricingBoletosMain.scenario_top_combos
                half 100000 three_sections 50 200 1.05 "alta"
              = Ok [[200; 162.5; 50]; [200; 181.25; 50]]).
  { vm_compute. reflexivity. }
  split; [exact H|].
  pose proof (main_ranks_valid_vectors half 100000 three_sections 50 200
                1.05 "alta" [[200; 162.5; 50]; [200; 181.25; 50]] H)
    as (H1 & H2 & _).
  split; [exact H1|exact H2].
Defined.

(** What [main] of [PricingMaster.py] shows for the fallback: a vector only
    when the exhaustive search returned nothing, which takes two sections
    or more; the vector passed the margin test, has one price per section,
    and the revenue shown is the one computed at the scenario's rate. *)
Theorem fallback_shows_valid_vector (rnd : nat -> float) (target : float)
  (sections : list section_t) (global_min global_max margin_factor : float)
  (scenario_code : string) (v : list float) (revenue : float) :
  PricingMasterMain.scenario_fallback rnd target sections global_min
    global_max margin_factor scenario_code = Ok (Some (v, revenue)) ->
  PricingMaster.generate_combinations
      sections scenario_code global_min global_max margin_factor = []
  /\ (2 <= length sections)%nat
  /\ length v = length sections
  /\ margin_respected margin_factor v
  /\ PricingMaster.compute_revenue_for_combo v sections scenario_code
     = Ok revenue.
Proof.
  unfold PricingMasterMain.scenario_fallback.
  destruct (is_empty _) eqn:Hempty; [|discriminate].
  apply is_empty_true in Hempty. intros H.
  apply bind_Ok_inv in H. destruct H as (best & Hbest & H).
  destruct best as [[|p combo]|]; try discriminate.
  apply bind_Ok_inv in H. destruct H as (r & Hr & H).
  assert (E : (p :: combo, r) = (v, revenue)) by congruence.
  injection E as <- <-.
  pose proof (proj2 (basic_vectors_have_one_price_per_section_aux
                       sections global_min global_max margin_factor)
                rnd target _ Hbest) as Hlen.
  apply basic_search_returns in Hbest. destruct Hbest as [Hok _].
  split; [assumption|]. split.
  - destruct sections as [|s [|s' rest]]; [discriminate| |simpl; lia].
    destruct (exhaustive_search_of_zero_or_one_section_aux s scenario_code
                global_min global_max margin_factor) as [_ Hne].
    now rewrite Hempty in Hne.
  - split; [assumption|]. split; [now apply margin_ok_iff|assumption].
Qed.


Lemma fallback_shows_valid_vector_witness :
  PricingMasterMain.scenario_fallback half 100000 three_sections 50 200 1.15
      "alta"
    = Ok (Some ([111.96; 73.68; 57.03], 118908.3))
  /\ PricingMaster.generate_combinations three_sections "alta" 50 200 1.15
     = []
  /\ (2 <= length three_sections)%nat.
Proof.
  assert (H : PricingMasterMain.scenario_fallback half 100000 three_sections
                50 200 1.15 "alta"
              = Ok (Some ([111.96; 73.68; 57.03], 118908.3))).
  { unfold PricingMasterMain.scenario_fallback.
    replace (PricingMaster.generate_combinations
               three_sections "alta" 50 200 1.15)
      with (@nil (list float)) by (vm_compute; reflexivity).
    cbn [is_empty].
    rewrite (basic_search_constant half 100000 three_sections 50 200 1.15
               [111.96; 73.68; 57.03] three_sections_fit).
    - vm_compute. reflexivity.
    - intros k. exists (S (S (S k))). vm_compute. reflexivity.
    - vm_compute. reflexivity. }
  split; [exact H|].
  pose proof (fallback_shows_valid_vector half 100000 three_sections 50 200
                1.15 "alta" [111.96; 73.68; 57.03] 118908.3 H)
    as (H1 & H2 & _).
  split; [exact H1|exact H2].
Defined.

(* ================================================================== *)
(** * The plot's margins *)

Lemma map_result_map {A B C : Type} (f : B -> result C) (g : A -> B)
  (l : list A) :
  map_result f (map g l) = map_result (fun x => f (g x)) l.
Proof. induction l as [|a l IH]; simpl; [reflexivity|]. now rewrite IH. Qed.

Lemma margins_cons (a b : float) (l : list float) :
  AppPricingBoletosMain.margins (a :: b :: l)
  = bind (py_truediv (a - b) a)
         (fun m => bind (AppPricingBoletosMain.margins (b :: l))
                        (fun ms => Ok (m :: ms))).
Proof.
  unfold AppPricingBoletosMain.margins. cbn [length].
  rewrite !Nat.sub_succ, !Nat.sub_0_r, <- cons_seq.
  cbn [map_result nth Nat.add]. f_equal.
  rewrite <- seq_shift, map_result_map. reflexivity.
Qed.

Lemma margins_short (l : list float) :
  (length l <= 1)%nat -> AppPricingBoletosMain.margins l = Ok [].
Proof.
  intros H. unfold AppPricingBoletosMain.margins.
  replace (length l - 1)%nat with O by lia. reflexivity.
Qed.

(** The margins the plot draws are the gaps [(combo[i] - combo[i+1]) /
    combo[i]], one fewer than the prices, when no price but the last is
    zero; a zero price that is not the last makes the plot raise
    [ZeroDivisionError]. *)
Theorem plot_margins_need_nonzero_prices (combo : list float) :
  (Forall (fun p => (p =? 0) = false) (removelast combo) ->
   AppPricingBoletosMain.margins combo = Ok (price_gaps combo)
   /\ length (price_gaps combo) = (length combo - 1)%nat)
  /\ (Exists (fun p => (p =? 0) = true) (removelast combo) ->
      AppPricingBoletosMain.margins combo = Raise ZeroDivisionError).
Proof.
  induction combo as [|a [|b l] IH].
  - split; [intros _; split; reflexivity|]. intros H. inversion H.
  - split; [intros _; split; reflexivity|]. intros H. inversion H.
  - destruct IH as [IHok IHraise]. rewrite margins_cons.
    change (removelast (a :: b :: l)) with (a :: removelast (b :: l)).
    split.
    + intros H. inversion H as [|? ? Ha Hrest]; subst.
      destruct (IHok Hrest) as [-> Hlen].
      rewrite (py_truediv_nonzero _ _ Ha), !bind_Ok. split; [reflexivity|].
      cbn [price_gaps length] in *. rewrite Hlen. lia.
    + intros H. unfold py_truediv.
      destruct (a =? 0) eqn:Ha; [reflexivity|]. rewrite bind_Ok.
      inversion H as [? ? Ha'|? ? Hrest]; subst; [congruence|].
      now rewrite (IHraise Hrest).
Qed.

Lemma plot_margins_need_nonzero_prices_witness :
  Forall (fun p => (p =? 0) = false) (removelast [200; 181.25; 50])
  /\ AppPricingBoletosMain.margins [200; 181.25; 50]
     = Ok (price_gaps [200; 181.25; 50])
  /\ Exists (fun p => (p =? 0) = true) (removelast [0; -1])
  /\ AppPricingBoletosMain.margins [0; -1] = Raise ZeroDivisionError.
Proof.
  assert (H1 : Forall (fun p => (p =? 0) = false)
                      (removelast [200; 181.25; 50])).
  { repeat constructor. }
  assert (H2 : Exists (fun p => (p =? 0) = true) (removelast [0; -1])).
  { left. reflexivity. }
  split; [exact H1|]. split.
  - exact (proj1 (proj1 (plot_margins_need_nonzero_prices [200; 181.25; 50])
                    H1)).
  - split; [exact H2|].
    exact (proj2 (plot_margins_need_nonzero_prices [0; -1]) H2).
Defined.

(* ================================================================== *)
(** * When the revenue model raises *)

Lemma map_result_raises {A B : Type} (f : A -> result B) (e : exn)
  (l : list A) :
  (forall a, In a l -> f a = Raise e \/ exists b, f a = Ok b) ->
  Exists (fun a => f a = Raise e) l ->
  map_result f l = Raise e.
Proof.
  intros Hf H. induction H as [a l Ha|a l H IH]; simpl.
  - now rewrite Ha.
  - destruct (Hf a (or_introl eq_refl)) as [->|[b ->]]; [reflexivity|].
    rewrite bind_Ok, IH; [reflexivity|].
    intros a' Ha'. apply Hf. now right.
Qed.

Lemma map_result_raise_inv {A B : Type} (f : A -> result B) (e : exn)
  (l : list A) :
  map_result f l = Raise e -> exists a, In a l /\ f a = Raise e.
Proof.
  induction l as [|a l IH]; simpl; [discriminate|].
  destruct (f a) as [b|e'] eqn:Ha.
  - rewrite bind_Ok. destruct (map_result f l) as [bs|e'']; [discriminate|].
    intros H. injection H as ->. destruct (IH eq_refl) as (a' & Hin & Hr).
    exists a'. split; [now right|assumption].
  - intros H. injection H as ->. exists a. split; [now left|assumption].
Qed.

Lemma seats_fit_dec (s : section_t) : {seats_fit s} + {~ seats_fit s}.
Proof.
  unfold seats_fit. destruct (is_infinity (float_of_Z (seats s)));
    [right; discriminate|left; reflexivity].
Qed.

Lemma float_of_int_unfit (s : section_t) :
  ~ seats_fit s -> float_of_int (seats s) = Raise OverflowError.
Proof.
  unfold seats_fit, float_of_int.
  destruct (is_infinity (float_of_Z (seats s))); [reflexivity|congruence].
Qed.

Lemma Exists_combine_r {A B : Type} (P : B -> Prop) (l : list A)
  (l' : list B) :
  Exists P (firstn (length l) l') -> Exists (fun ab => P (snd ab)) (combine l l').
Proof.
  revert l'. induction l as [|a l IH]; intros [|b l'] H; simpl in *;
    try (now inversion H).
  inversion H as [? ? Hb|? ? Hrest]; subst; [now left|right; now apply IH].
Qed.

Lemma revenue_model_firstn (rate : float) (combo : list float)
  (sections : list section_t) :
  revenue_model rate combo (firstn (length combo) sections)
  = revenue_model rate combo sections.
Proof.
  unfold revenue_model.
  rewrite <- !(map_combine_positions
                 (fun p s => float_of_Z (seats s) * rate * p)).
  now rewrite <- combine_firstn_l.
Qed.

(** The revenue computations convert the seat counts of the sections that
    have a price, and no others: they return the model's sum when all of
    these fit a float, and raise [OverflowError] when one does not. *)
Theorem revenue_raises_exactly_on_unfit_seats (combo : list float)
  (sections : list section_t) (scenario : string) :
  (Forall seats_fit (firstn (length combo) sections)
   /\ PricingMaster.compute_revenue_for_combo combo sections scenario
      = Ok (revenue_model (sell_through_rate scenario) combo sections)
   /\ AppPricingBoletos.revenue combo sections scenario
      = Ok (revenue_model (sell_through_rate scenario) combo sections))
  \/ (Exists (fun s => ~ seats_fit s) (firstn (length combo) sections)
      /\ PricingMaster.compute_revenue_for_combo combo sections scenario
         = Raise OverflowError
      /\ AppPricingBoletos.revenue combo sections scenario
         = Raise OverflowError).
Proof.
  destruct (Forall_Exists_dec seats_fit seats_fit_dec
              (firstn (length combo) sections)) as [Hfit|Hunfit].
  - left. split; [assumption|].
    pose proof (compute_revenue_for_combo_model combo _ scenario Hfit) as H1.
    pose proof (revenue_model_of_improved combo _ scenario Hfit) as H2.
    rewrite revenue_model_firstn in H1, H2.
    unfold PricingMaster.compute_revenue_for_combo, AppPricingBoletos.revenue
      in *.
    rewrite <- combine_firstn_l in H1, H2. now split.
  - right. split; [assumption|].
    apply Exists_combine_r with (l := combo) in Hunfit.
    unfold PricingMaster.compute_revenue_for_combo, AppPricingBoletos.revenue.
    split.
    + rewrite (map_result_raises _ OverflowError); [reflexivity| |].
      * intros [p s] _. destruct (seats_fit_dec s) as [Hs|Hs].
        -- right. rewrite (float_of_int_fit s Hs), bind_Ok. eauto.
        -- left. now rewrite (float_of_int_unfit s Hs).
      * eapply Exists_impl; [|exact Hunfit].
        intros [p s] Hs. simpl in Hs. now rewrite (float_of_int_unfit s Hs).
    + rewrite (map_result_raises _ OverflowError); [reflexivity| |].
      * intros [p s] _. destruct (seats_fit_dec s) as [Hs|Hs].
        -- right. rewrite (float_of_int_fit s Hs), bind_Ok. eauto.
        -- left. now rewrite (float_of_int_unfit s Hs).
      * eapply Exists_impl; [|exact Hunfit].
        intros [p s] Hs. simpl in Hs. now rewrite (float_of_int_unfit s Hs).
Qed.


(* ================================================================== *)
(** * Seat counts that fit a float *)

Lemma digits2_pos_shift (m k : positive) :
  digits2_pos (Pos.iter xO m k) = (digits2_pos m + k)%positive.
Proof.
  induction k as [|k IH] using Pos.peano_ind.
  - simpl. lia.
  - rewrite Pos.iter_succ. cbn [digits2_pos]. rewrite IH. lia.
Qed.

Lemma shl_align_full_precision (m : positive) :
  (Zpos m < 2 ^ 53)%Z ->
  exists mz ez,
    shl_align m 0 (fexp prec emax (Zpos (digits2_pos m) + 0)) = (mz, ez)
    /\ Zpos (digits2_pos mz) = 53%Z /\ (-52 <= ez <= 0)%Z.
Proof.
  intros Hm.
  assert (Hd : (Zpos (digits2_pos m) <= 53)%Z).
  { pose proof (digits2_pos_lower m) as Hl.
    destruct (Z_le_gt_dec (Zpos (digits2_pos m)) 53) as [H|H]; [exact H|].
    assert (2 ^ 53 <= 2 ^ (Zpos (digits2_pos m) - 1))%Z
      by (apply Z.pow_le_mono_r; lia).
    lia. }
  assert (Hf : fexp prec emax (Zpos (digits2_pos m) + 0)
               = (Zpos (digits2_pos m) - 53)%Z).
  { unfold fexp, emin, prec, emax. lia. }
  rewrite Hf. unfold shl_align.
  destruct (Zpos (digits2_pos m) - 53 - 0)%Z as [|k|k] eqn:Hk.
  - exists m, 0%Z. split; [reflexivity|]. lia.
  - lia.
  - exists (Pos.iter xO m k), (Zpos (digits2_pos m) - 53)%Z.
    split; [reflexivity|]. rewrite digits2_pos_shift. lia.
Qed.

Lemma binary_round_aux_full_precision (mz : positive) (ez : Z) :
  Zpos (digits2_pos mz) = 53%Z -> (-52 <= ez <= 0)%Z ->
  binary_round_aux prec emax false (Zpos mz) ez loc_Exact
  = S754_finite false mz ez.
Proof.
  intros Hd He.
  assert (Hs : forall l, shr_fexp prec emax (Zpos mz) ez l
                         = (shr_record_of_loc (Zpos mz) l, ez)).
  { intros l. unfold shr_fexp, Zdigits2. rewrite Hd.
    replace (fexp prec emax (53 + ez) - ez)%Z with 0%Z
      by (unfold fexp, emin, prec, emax; lia).
    reflexivity. }
  unfold binary_round_aux. rewrite Hs.
  cbn [shr_record_of_loc shr_m loc_of_shr_record round_nearest_even].
  rewrite Hs. cbn [shr_record_of_loc shr_m].
  replace (ez <=? emax - prec)%Z with true; [reflexivity|].
  symmetry. apply Z.leb_le. unfold emax, prec. lia.
Qed.

Lemma float_of_Z_finite (z : Z) :
  (0 <= z < 2 ^ 53)%Z -> is_infinity (float_of_Z z) = false.
Proof.
  intros [H0 H1]. destruct z as [|m|m]; [reflexivity| |lia].
  unfold float_of_Z, binary_normalize, binary_round.
  destruct (shl_align_full_precision m H1) as (mz & ez & -> & Hd & He).
  rewrite (binary_round_aux_full_precision mz ez Hd He).
  unfold is_infinity. rewrite FloatAxioms.eqb_spec, FloatAxioms.abs_spec.
  rewrite Prim2SF_SF2Prim; [reflexivity|].
  unfold valid_binary, bounded, canonical_mantissa. rewrite Hd.
  apply andb_true_intro. split.
  - apply Z.eqb_eq. unfold fexp, emin, prec, emax. lia.
  - apply Z.leb_le. unfold emax, prec. lia.
Qed.


Lemma scenario_windows_partition_grid_witness :
  (50 <? 200) = true
  /\ ~ In "otro"%string scenario_codes
  /\ PricingMaster.generate_candidate_prices 50 200 "baja"
     ++ PricingMaster.generate_candidate_prices 50 200 "moderada"
     ++ PricingMaster.generate_candidate_prices 50 200 "alta"
     = PricingMaster.generate_candidate_prices 50 200 "otro".
Proof.
  assert (H1 : (50 <? 200) = true) by reflexivity.
  assert (H2 : ~ In "otro"%string scenario_codes).
  { unfold scenario_codes. simpl. intros [H|[H|[H|[]]]]; discriminate. }
  split; [exact H1|]. split; [exact H2|].
  exact (proj1 (scenario_windows_partition_grid 50 200 "otro"%string H1 H2)).
Defined.

(* ================================================================== *)
(** * When the heuristic searches divide by zero *)

Lemma for_range_raise_inv {S : Type} (n : nat) (body : S -> result S)
  (e : exn) :
  forall s, for_range n body s = Raise e -> exists s', body s' = Raise e.
Proof.
  induction n as [|n IH]; intros s H; [discriminate|].
  rewrite for_range_S in H. destruct (body s) as [s1|e1] eqn:Hb.
  - rewrite bind_Ok in H. eauto.
  - exists s. now rewrite Hb.
Qed.

Lemma float_of_int_raise (n : Z) (e : exn) :
  float_of_int n = Raise e -> e = OverflowError.
Proof.
  unfold float_of_int. destruct (is_infinity (float_of_Z n)); congruence.
Qed.

Lemma basic_revenue_raise (combo : list float) (sections : list section_t)
  (scenario : string) (e : exn) :
  PricingMaster.compute_revenue_for_combo combo sections scenario = Raise e ->
  e = OverflowError.
Proof.
  unfold PricingMaster.compute_revenue_for_combo. intros H.
  destruct (map_result _ (combine combo sections)) as [terms|e1] eqn:Hm;
    [discriminate|].
  assert (e1 = e) by (simpl in H; congruence). subst e1. clear H.
  apply map_result_raise_inv in Hm. destruct Hm as ([p s] & _ & Hr).
  destruct (float_of_int (seats s)) as [n|e2] eqn:Hn; [discriminate|].
  assert (e2 = e) by (simpl in Hr; congruence). subst e2.
  now apply float_of_int_raise in Hn.
Qed.

Lemma improved_revenue_raise (combo : list float) (sections : list section_t)
  (scenario : string) (e : exn) :
  AppPricingBoletos.revenue combo sections scenario = Raise e ->
  e = OverflowError.
Proof.
  unfold AppPricingBoletos.revenue. intros H.
  destruct (map_result _ (combine combo sections)) as [terms|e1] eqn:Hm;
    [discriminate|].
  assert (e1 = e) by (simpl in H; congruence). subst e1. clear H.
  apply map_result_raise_inv in Hm. destruct Hm as ([p s] & _ & Hr).
  destruct (float_of_int (seats s)) as [n|e2] eqn:Hn; [discriminate|].
  assert (e2 = e) by (simpl in Hr; congruence). subst e2.
  now apply float_of_int_raise in Hn.
Qed.

Lemma basic_build_combo_raise (rnd : nat -> float)
  (sections : list section_t) (global_min margin_factor : float)
  (combo : list float) (prev : float) (k : nat) (e : exn) :
  PricingMaster.build_combo rnd sections global_min margin_factor combo prev k
  = Raise e ->
  e = ZeroDivisionError /\ (margin_factor =? 0) = true /\ sections <> [].
Proof.
  intros H. destruct (margin_factor =? 0) eqn:Hmf.
  - destruct sections as [|s rest]; [discriminate|].
    cbn [PricingMaster.build_combo] in H. unfold py_truediv in H.
    rewrite Hmf in H. injection H as <-. repeat split. discriminate.
  - destruct (basic_build_combo_total rnd sections global_min margin_factor
                Hmf combo prev k) as (c & k' & E).
    congruence.
Qed.

Lemma build_interior_raise (rnd : nat -> float) (n : nat)
  (global_min margin_factor : float) (combo : list float) (prev : float)
  (k : nat) (e : exn) :
  AppPricingBoletos.build_interior rnd n global_min margin_factor combo prev k
  = Raise e ->
  e = ZeroDivisionError /\ (margin_factor =? 0) = true /\ n <> O.
Proof.
  intros H. destruct (margin_factor =? 0) eqn:Hmf.
  - destruct n as [|n]; [discriminate|].
    cbn [AppPricingBoletos.build_interior] in H. unfold py_truediv in H.
    rewrite Hmf in H. injection H as <-. repeat split. discriminate.
  - destruct (build_interior_total rnd n global_min margin_factor
                Hmf combo prev k) as (c & k' & E).
    congruence.
Qed.

(** The heuristic searches raise [ZeroDivisionError] exactly when the margin
    factor is zero and there is a price to draw: one section for the search
    of [PricingMaster.py], three for the search with pinned end points.
    The error comes from the first trial. *)
Theorem heuristic_searches_divide_by_margin_factor
  (rnd : nat -> float) (target : float) (sections : list section_t)
  (global_min global_max margin_factor : float) (scenario : string) :
  (PricingMaster.heuristic_search rnd target sections global_min global_max
                                  margin_factor = Raise ZeroDivisionError
   <-> (margin_factor =? 0) = true /\ (1 <= length sections)%nat)
  /\ (AppPricingBoletos.heuristic_price_search rnd target sections global_min
        global_max margin_factor scenario = Raise ZeroDivisionError
      <-> (margin_factor =? 0) = true /\ (3 <= length sections)%nat).
Proof.
  split; split.
  - unfold PricingMaster.heuristic_search. intros H.
    destruct (for_range trial_count _ _) as [st|e] eqn:Hf; [discriminate|].
    injection H as ->. apply for_range_raise_inv in Hf.
    destruct Hf as ([[b d] k] & Ht). unfold PricingMaster.trial in Ht.
    destruct (PricingMaster.build_combo rnd sections global_min margin_factor
                [] global_max k) as [[c kc]|e] eqn:Hb.
    + rewrite bind_Ok in Ht.
      destruct (margin_ok margin_factor c); [|discriminate].
      destruct (PricingMaster.compute_revenue_for_combo c sections "alta")
        as [r|e] eqn:Hr.
      * rewrite bind_Ok in Ht. destruct (abs (r - target) <? d); discriminate.
      * apply basic_revenue_raise in Hr. subst e. discriminate.
    + apply basic_build_combo_raise in Hb. destruct Hb as (_ & Hmf & Hs).
      split; [assumption|]. destruct sections; [congruence|simpl; lia].
  - intros [Hmf Hs]. unfold PricingMaster.heuristic_search.
    pose proof trial_count_positive as Hn.
    destruct trial_count as [|n]; [lia|].
    rewrite for_range_S. unfold PricingMaster.trial at 1.
    destruct sections as [|s rest]; [simpl in Hs; lia|].
    cbn [PricingMaster.build_combo]. unfold py_truediv. rewrite Hmf.
    reflexivity.
  - unfold AppPricingBoletos.heuristic_price_search. intros H.
    destruct (for_range trial_count _ _) as [st|e] eqn:Hf; [discriminate|].
    injection H as ->. apply for_range_raise_inv in Hf.
    destruct Hf as ([[b d] k] & Ht). unfold AppPricingBoletos.trial in Ht.
    destruct (AppPricingBoletos.build_combo rnd sections global_min global_max
                margin_factor k) as [[c kc]|e] eqn:Hb.
    + rewrite bind_Ok in Ht.
      destruct (margin_ok margin_factor c); [|discriminate].
      destruct (AppPricingBoletos.revenue c sections scenario)
        as [r|e] eqn:Hr.
      * rewrite bind_Ok in Ht. destruct (abs (r - target) <? d); discriminate.
      * apply improved_revenue_raise in Hr. subst e. discriminate.
    + unfold AppPricingBoletos.build_combo in Hb.
      destruct (AppPricingBoletos.build_interior rnd (length sections - 2)
                  global_min margin_factor [py_round2 global_max] global_max k)
        as [[c1 k1]|e1] eqn:Hi; [discriminate|].
      apply build_interior_raise in Hi.
      destruct Hi as (_ & Hmf & Hs). split; [assumption|lia].
  - intros [Hmf Hs]. unfold AppPricingBoletos.heuristic_price_search.
    pose proof trial_count_positive as Hn.
    destruct trial_count as [|n]; [lia|].
    rewrite for_range_S. unfold AppPricingBoletos.trial at 1.
    unfold AppPricingBoletos.build_combo.
    destruct (length sections - 2)%nat as [|m] eqn:Hm; [lia|].
    cbn [AppPricingBoletos.build_interior]. unfold py_truediv. rewrite Hmf.
    reflexivity.
Qed.

Lemma heuristic_searches_divide_by_margin_factor_witness :
  ((0 =? 0) = true /\ (1 <= length three_sections)%nat)
  /\ PricingMaster.heuristic_search half 100000 three_sections 50 200 0
     = Raise ZeroDivisionError
  /\ ((0 =? 0) = true /\ (3 <= length three_sections)%nat)
  /\ AppPricingBoletos.heuristic_price_search half 100000 three_sections
       50 200 0 "alta" = Raise ZeroDivisionError.
Proof.
  assert (H1 : (0 =? 0) = true /\ (1 <= length three_sections)%nat).
  { split; [reflexivity|]. unfold three_sections. simpl. lia. }
  assert (H3 : (0 =? 0) = true /\ (3 <= length three_sections)%nat).
  { split; [reflexivity|]. unfold three_sections. simpl. lia. }
  pose proof (heuristic_searches_divide_by_margin_factor half 100000
                three_sections 50 200 0 "alta"%string) as [Hb Hi].
  split; [exact H1|]. split; [exact (proj2 Hb H1)|].
  split; [exact H3|exact (proj2 Hi H3)].
Defined.

(* ================================================================== *)
(** * The inputs the pages accept *)

Lemma slider_margin_factor (margin : Z) :
  (2 <= margin <= 20)%Z ->
  (1 + float_of_Z margin / 100 =? 0) = false
  /\ (1.02 <=? 1 + float_of_Z margin / 100) = true
  /\ (1 + float_of_Z margin / 100 <=? 1.2) = true.
Proof.
  intros H.
  assert (E : (margin = 2 \/ margin = 3 \/ margin = 4 \/ margin = 5
               \/ margin = 6 \/ margin = 7 \/ margin = 8 \/ margin = 9
               \/ margin = 10 \/ margin = 11 \/ margin = 12 \/ margin = 13
               \/ margin = 14 \/ margin = 15 \/ margin = 16 \/ margin = 17
               \/ margin = 18 \/ margin = 19 \/ margin = 20)%Z) by lia.
  repeat (destruct E as [->|E]; [vm_compute; repeat split|]).
  subst margin. vm_compute. repeat split.
Qed.

Lemma small_seats_fit (sections : list section_t) :
  Forall (fun s => (0 <= seats s < 2 ^ 53)%Z) sections ->
  Forall seats_fit sections.
Proof.
  apply Forall_impl. intros s H. unfold seats_fit.
  now apply float_of_Z_finite.
Qed.

Lemma improved_total_revenue_total (rate : float) (combo : list float)
  (sections : list section_t) :
  Forall seats_fit sections ->
  exists r, AppPricingBoletosMain.total_revenue rate combo sections = Ok r.
Proof.
  intros Hfit. unfold AppPricingBoletosMain.total_revenue.
  rewrite (map_result_total _
             (fun ps : float * section_t =>
                fst ps * float_of_Z (seats (snd ps)) * rate)).
  - rewrite bind_Ok. eauto.
  - apply Forall_forall. intros [p s] Hin. apply in_combine_r in Hin.
    rewrite Forall_forall in Hfit.
    now rewrite (float_of_int_fit s (Hfit s Hin)), bind_Ok.
Qed.

Lemma basic_search_total (rnd : nat -> float) (target : float)
  (sections : list section_t) (global_min global_max margin_factor : float) :
  (margin_factor =? 0) = false -> Forall seats_fit sections ->
  exists r, PricingMaster.heuristic_search rnd target sections global_min
              global_max margin_factor = Ok r.
Proof.
  intros Hmf Hfit. unfold PricingMaster.heuristic_search.
  rewrite (for_range_ext _ _ _ _ (basic_trial_loop_body rnd target sections
             global_min global_max margin_factor)).
  destruct (for_range_loop_total _ (margin_ok margin_factor)
              (basic_score target sections) trial_count
              (fun k => basic_build_combo_total rnd sections global_min
                          margin_factor Hmf [] global_max k)
              (fun c _ => ex_intro _ _ (basic_score_distance target sections c
                                          Hfit))
              (None, infinity, O)) as (st & ->).
  rewrite bind_Ok. eauto.
Qed.

Lemma improved_search_total (rnd : nat -> float) (target : float)
  (sections : list section_t) (global_min global_max margin_factor : float)
  (scenario : string) :
  (margin_factor =? 0) = false -> Forall seats_fit sections ->
  exists r, AppPricingBoletos.heuristic_price_search rnd target sections
              global_min global_max margin_factor scenario = Ok r.
Proof.
  intros Hmf Hfit. unfold AppPricingBoletos.heuristic_price_search.
  rewrite (for_range_ext _ _ _ _ (improved_trial_loop_body rnd target sections
             global_min global_max margin_factor scenario)).
  destruct (for_range_loop_total _ (margin_ok margin_factor)
              (improved_score target sections scenario) trial_count
              (improved_build_combo_total rnd sections global_min global_max
                 margin_factor Hmf)
              (fun c _ => ex_intro _ _ (improved_score_distance target sections
                                          scenario c Hfit))
              (None, infinity, O)) as (st & ->).
  rewrite bind_Ok. eauto.
Qed.

(** With the inputs the pages accept (a margin of 2 to 20 percent, seat
    counts that are non-negative and below 2^53, which covers the 10 to
    10,000 of the seat fields) the margin factor lies between 1.02 and 1.2
    and these steps of [main] raise nothing for a scenario: the searches,
    the fallback's revenue, the ranking and the revenue shown for an
    option, whatever the prices, the target and the random draws.  (The
    plot, which divides by the prices, is not among them.) *)
Theorem page_inputs_raise_nothing (rnd : nat -> float) (target : float)
  (sections : list section_t) (global_min global_max : float) (margin : Z)
  (scenario_code : string) :
  (2 <= margin <= 20)%Z ->
  Forall (fun s => (0 <= seats s < 2 ^ 53)%Z) sections ->
  ((1.02 <=? PricingMasterMain.margin_factor margin) = true
   /\ (AppPricingBoletosMain.margin_factor margin <=? 1.2) = true)
  /\ (exists shown,
        PricingMasterMain.scenario_fallback rnd target sections global_min
          global_max (PricingMasterMain.margin_factor margin) scenario_code
        = Ok shown)
  /\ (exists ranked,
        AppPricingBoletosMain.scenario_top_combos rnd target sections
          global_min global_max (AppPricingBoletosMain.margin_factor margin)
          scenario_code
        = Ok ranked)
  /\ (forall sell_rate combo, exists revenue,
        AppPricingBoletosMain.total_revenue sell_rate combo sections
        = Ok revenue).
Proof.
  intros Hm Hs. apply small_seats_fit in Hs.
  destruct (slider_margin_factor margin Hm) as (Hmf & Hlo & Hhi).
  split; [split; assumption|]. split; [|split].
  - unfold PricingMasterMain.scenario_fallback,
      PricingMasterMain.margin_factor.
    destruct (is_empty _); [|eauto].
    destruct (basic_search_total rnd target sections global_min global_max
                _ Hmf Hs) as (best & ->).
    rewrite bind_Ok. destruct best as [[|p combo]|]; eauto.
    rewrite (compute_revenue_for_combo_model _ _ scenario_code Hs), bind_Ok.
    eauto.
  - unfold AppPricingBoletosMain.scenario_top_combos,
      AppPricingBoletosMain.margin_factor.
    destruct (is_empty (AppPricingBoletos.generate_valid_combinations _ _ _ _ _)).
    + destruct (improved_search_total rnd target sections global_min
                  global_max _ scenario_code Hmf Hs) as (best & ->).
      rewrite !bind_Ok. destruct (is_empty _); [eauto|].
      rewrite (top_combos_of_keys _ _ _ Hs). eauto.
    + rewrite bind_Ok. destruct (is_empty _); [eauto|].
      rewrite (top_combos_of_keys _ _ _ Hs). eauto.
  - intros rate combo. now apply improved_total_revenue_total.
Qed.

Lemma page_inputs_raise_nothing_witness :
  (2 <= 5 <= 20)%Z
  /\ Forall (fun s => (0 <= seats s < 2 ^ 53)%Z) three_sections
  /\ (1.02 <=? PricingMasterMain.margin_factor 5) = true
  /\ exists ranked,
       AppPricingBoletosMain.scenario_top_combos half 100000 three_sections
         50 200 (AppPricingBoletosMain.margin_factor 5) "alta"
       = Ok ranked.
Proof.
  assert (H1 : (2 <= 5 <= 20)%Z) by lia.
  assert (H2 : Forall (fun s => (0 <= seats s < 2 ^ 53)%Z) three_sections).
  { unfold three_sections. repeat constructor; simpl; lia. }
  pose proof (page_inputs_raise_nothing half 100000 three_sections 50 200 5
                "alta"%string H1 H2) as ((Hlo & _) & _ & Hr & _).
  split; [exact H1|]. split; [exact H2|]. split; [exact Hlo|exact Hr].
Defined.


(* ================================================================== *)
(** * Ties between trials *)

Lemma leb_ltb_trans (a b c : float) :
  (a <=? b) = true -> (b <? c) = true -> (a <? c) = true.
Proof.
  float_cmp.
  destruct (SFcompare (Prim2SF a) (Prim2SF b)) as [[ | | ]|] eqn:E1;
    try discriminate;
  destruct (SFcompare (Prim2SF b) (Prim2SF c)) as [[ | | ]|] eqn:E2;
    try discriminate;
  rewrite (SFcompare_trans _ _ _ _ _ E1 E2); congruence.
Qed.

Section FirstBest.

Variable build : nat -> result (list float * nat).
Variable accept : list float -> bool.
Variable score : list float -> result float.

(** A trial replaces the best combination only when it is strictly closer:
    the combination a search ends with is strictly closer than every
    accepted trial before it, and no accepted trial after it is closer. *)
Lemma for_range_first_best (n : nat) :
  forall b0 d0 k0 b d k,
    for_range n (loop_body build accept score) (b0, d0, k0) = Ok (b, d, k) ->
    (b = b0 /\ d = d0)
    \/ exists pre c post,
         built_combos build n k0 = Ok (pre ++ c :: post)
         /\ b = Some c /\ accept c = true /\ score c = Ok d
         /\ (d <? d0) = true
         /\ Forall (fun c' => accept c' = true ->
                      exists dc, score c' = Ok dc /\ (dc <=? d) = false) pre
         /\ Forall (fun c' => accept c' = true ->
                      exists dc, score c' = Ok dc /\ (dc <? d) = false) post.
Proof.
  induction n as [|n IH]; intros b0 d0 k0 b d k H.
  - injection H as <- <- <-. now left.
  - rewrite for_range_S in H. apply bind_Ok_inv in H.
    destruct H as ([[b1 d1] k1] & Hbody & H).
    apply loop_body_inv in Hbody. destruct Hbody as (c1 & kc & Hbuild & Hcase).
    assert (Hk : k1 = kc).
    { destruct Hcase as [[_ E]|[(dc & _ & _ & _ & E)|(dc & _ & _ & _ & E)]];
        now injection E. }
    subst k1.
    assert (Hcons : forall rest,
              built_combos build n kc = Ok rest ->
              built_combos build (S n) k0 = Ok (c1 :: rest)).
    { intros rest Hr. rewrite built_combos_S, Hbuild. simpl.
      now rewrite Hr. }
    pose proof (for_range_loop_outcome build accept score n _ _ _ _ _ _ H)
      as (rest & Hrest & _ & Hall & _).
    apply IH in H.
    destruct Hcase as [[Hacc E]|[(dc & Hacc & Hs & Hlt & E)
                                |(dc & Hacc & Hs & Hlt & E)]];
      injection E as -> ->.
    + (* the first trial failed the test *)
      destruct H as [H|(pre & c & post & Hb & -> & Ha & Hsc & Hd & Hpre
                        & Hpost)]; [now left|].
      right. exists (c1 :: pre), c, post.
      split; [now apply Hcons|]. repeat split; try assumption.
      constructor; [congruence|assumption].
    + (* the first trial was not closer than the start *)
      destruct H as [H|(pre & c & post & Hb & -> & Ha & Hsc & Hd & Hpre
                        & Hpost)]; [now left|].
      right. exists (c1 :: pre), c, post.
      split; [now apply Hcons|]. repeat split; try assumption.
      constructor; [|assumption]. intros _. exists dc.
      split; [assumption|].
      destruct (dc <=? d) eqn:E; [|reflexivity].
      rewrite (leb_ltb_trans _ _ _ E Hd) in Hlt. discriminate.
    + (* the first trial took the lead *)
      destruct H as [[-> ->]|(pre & c & post & Hb & -> & Ha & Hsc & Hd & Hpre
                              & Hpost)].
      * right. exists [], c1, rest.
        split; [now apply Hcons|]. repeat split; try assumption.
        constructor.
      * right. exists (c1 :: pre), c, post.
        split; [now apply Hcons|]. repeat split; try assumption.
        -- eapply ltb_trans; eassumption.
        -- constructor; [|assumption]. intros _. exists dc.
           split; [assumption|]. now apply ltb_leb_false.
Qed.

End FirstBest.

(** Among the trials at the smallest distance the heuristic searches return
    the first: the 10,000 vectors built split around the returned one, each
    passing vector built before it is strictly farther from the target (or
    its distance is NaN), and no passing vector built after it is closer. *)
Theorem heuristic_searches_return_first_closest
  (rnd : nat -> float) (target : float) (sections : list section_t)
  (global_min global_max margin_factor : float) (scenario : string)
  (found : list float) :
  Forall seats_fit sections ->
  (PricingMaster.heuristic_search rnd target sections global_min global_max
                                  margin_factor = Ok (Some found) ->
   exists earlier later,
     built_combos (PricingMaster.build_combo rnd sections global_min
                     margin_factor [] global_max) trial_count O
     = Ok (earlier ++ found :: later)
     /\ Forall (fun c => margin_ok margin_factor c = true ->
                  (distance 0.98 sections target c
                   <=? distance 0.98 sections target found) = false) earlier
     /\ Forall (fun c => margin_ok margin_factor c = true ->
                  (distance 0.98 sections target c
                   <? distance 0.98 sections target found) = false) later)
  /\ (AppPricingBoletos.heuristic_price_search rnd target sections global_min
        global_max margin_factor scenario = Ok (Some found) ->
      exists earlier later,
        built_combos (AppPricingBoletos.build_combo rnd sections global_min
                        global_max margin_factor) trial_count O
        = Ok (earlier ++ found :: later)
        /\ Forall (fun c => margin_ok margin_factor c = true ->
                     (distance (sell_through_rate scenario) sections target c
                      <=? distance (sell_through_rate scenario) sections
                            target found) = false) earlier
        /\ Forall (fun c => margin_ok margin_factor c = true ->
                     (distance (sell_through_rate scenario) sections target c
                      <? distance (sell_through_rate scenario) sections
                           target found) = false) later).
Proof.
  intros Hfit. split.
  - unfold PricingMaster.heuristic_search.
    rewrite (for_range_ext _ _ _ _ (basic_trial_loop_body rnd target sections
               global_min global_max margin_factor)).
    intros H. apply bind_Ok_inv in H. destruct H as ([[b d] k] & Hloop & H).
    assert (b = Some found) by (simpl in H; congruence). subst b. clear H.
    apply for_range_first_best in Hloop.
    destruct Hloop as [[? _]|(pre & c & post & Hb & E & _ & Hsc & _ & Hpre
                             & Hpost)]; [discriminate|].
    injection E as <-. exists pre, post. split; [assumption|].
    rewrite (basic_score_distance target sections found Hfit) in Hsc.
    injection Hsc as <-.
    split; eapply Forall_impl; try eassumption; cbv beta; intros c Hc Hacc;
      destruct (Hc Hacc) as (dc & Hs & Hd);
      rewrite (basic_score_distance target sections c Hfit) in Hs;
      now injection Hs as <-.
  - unfold AppPricingBoletos.heuristic_price_search.
    rewrite (for_range_ext _ _ _ _ (improved_trial_loop_body rnd target
               sections global_min global_max margin_factor scenario)).
    intros H. apply bind_Ok_inv in H. destruct H as ([[b d] k] & Hloop & H).
    assert (b = Some found) by (simpl in H; congruence). subst b. clear H.
    apply for_range_first_best in Hloop.
    destruct Hloop as [[? _]|(pre & c & post & Hb & E & _ & Hsc & _ & Hpre
                             & Hpost)]; [discriminate|].
    injection E as <-. exists pre, post. split; [assumption|].
    rewrite (improved_score_distance target sections scenario found Hfit)
      in Hsc.
    injection Hsc as <-.
    split; eapply Forall_impl; try eassumption; cbv beta; intros c Hc Hacc;
      destruct (Hc Hacc) as (dc & Hs & Hd);
      rewrite (improved_score_distance target sections scenario c Hfit)
        in Hs;
      now injection Hs as <-.
Qed.

Lemma heuristic_searches_return_first_closest_witness :
  Forall seats_fit three_sections
  /\ PricingMaster.heuristic_search half 100000 three_sections 50 200 1.15
     = Ok (Some [111.96; 73.68; 57.03])
  /\ exists earlier later,
       built_combos (PricingMaster.build_combo half three_sections 50 1.15 []
                       200) trial_count O
       = Ok (earlier ++ [111.96; 73.68; 57.03] :: later)
       /\ Forall (fun c => margin_ok 1.15 c = true ->
                    (distance 0.98 three_sections 100000 c
                     <=? distance 0.98 three_sections 100000
                           [111.96; 73.68; 57.03]) = false) earlier
       /\ Forall (fun c => margin_ok 1.15 c = true ->
                    (distance 0.98 three_sections 100000 c
                     <? distance 0.98 three_sections 100000
                          [111.96; 73.68; 57.03]) = false) later.
Proof.
  assert (H : PricingMaster.heuristic_search half 100000 three_sections 50
                200 1.15 = Ok (Some [111.96; 73.68; 57.03])).
  { rewrite (basic_search_constant half 100000 three_sections 50 200 1.15
               [111.96; 73.68; 57.03] three_sections_fit).
    - vm_compute. reflexivity.
    - intros k. exists (S (S (S k))). vm_compute. reflexivity.
    - vm_compute. reflexivity. }
  split; [exact three_sections_fit|]. split; [exact H|].
  exact (proj1 (heuristic_searches_return_first_closest half 100000
                  three_sections 50 200 1.15 "alta"%string
                  [111.96; 73.68; 57.03] three_sections_fit) H).
Defined.
